(** * DemaTema2: a DEMA-crossover strategy and its backtest report

    Shallow embedding of [src/DemaTema2.py].  The strategy class
    [DemaCrossStrategy] is a small state machine driven by the backtesting
    engine: the engine delivers order notifications ([notify_order]) and, once
    the indicators' warm-up is over, calls the per-bar decision function
    ([next]).  [full_backtest] reads the analyzers after the run, prints one
    summary line and plots the recorded fills; [__main__] downloads the data
    and aborts when the download is empty.

    Python floats are IEEE binary64 numbers, modelled by Rocq's primitive
    floats; Python integers are [Z].  Exceptions are explicit: a computation
    returns the output it produced so far together with either a value or the
    exception that stopped it. *)

From Stdlib Require Import ZArith List Bool String Floats Uint63 Lia.
Import ListNotations.

Set Implicit Arguments.

(** ** Exceptions, output and the effect monad *)

Module Py.

(** The exceptions the program can raise.  [ValueError] is raised by the
    explicit [raise] of [__main__] and by [int(nan)]; the others by the
    Python runtime and by the lookups in the closed analysis only. *)
Inductive exn : Type :=
| ValueError (msg : string)
| TypeError (msg : string)
| ZeroDivisionError (msg : string)
| OverflowError (msg : string)
| KeyError (key : string).

(** Python values that reach a format field of the summary line. *)
Inductive value : Type :=
| PyNone
| PyInt (z : Z)
| PyFloat (f : float).

(** Truth value of an object in a condition ([if x], [x or y]):
    [None], [0], [0.0] and [-0.0] are false, every other number (NaN
    included) is true. *)
Definition truthy (v : value) : bool :=
  match v with
  | PyNone => false
  | PyInt z => negb (z =? 0)%Z
  | PyFloat f => negb (PrimFloat.eqb f 0%float)
  end.

(** Comparison of floats.  [a > b] and [a < b] are false as soon as one side
    is NaN. *)
Definition gt (a b : float) : bool := PrimFloat.ltb b a.
Definition lt (a b : float) : bool := PrimFloat.ltb a b.

(** A finite binary64 number is [n / d] for the integers below ([d] a
    power of two); [None] for NaN and the infinities. *)
Definition fraction (f : float) : option (Z * Z) :=
  match Prim2SF f with
  | S754_zero _ => Some (0, 1)%Z
  | S754_finite sign m e =>
      let n := (Z.pos m * 2 ^ Z.max e 0)%Z in
      Some (if sign then (- n)%Z else n, (2 ^ Z.max (- e) 0)%Z)
  | S754_infinity _ | S754_nan => None
  end.

(** The floor of the spec: the largest integer not above [f], for a finite
    [f]. *)
Definition floor (f : float) : option Z :=
  match fraction f with
  | Some (n, d) => Some (n / d)%Z
  | None => None
  end.

(** [int(f)]: truncation toward zero; [int(nan)] and [int(inf)] raise. *)
Definition int (f : float) : exn + Z :=
  match Prim2SF f, fraction f with
  | S754_nan, _ => inl (ValueError "cannot convert float NaN to integer")
  | _, Some (n, d) => inr (Z.quot n d)
  | _, None => inl (OverflowError "cannot convert float infinity to integer")
  end.

(** [a / b] on floats: a zero divisor (of either sign) raises. *)
Definition truediv (a b : float) : exn + float :=
  if PrimFloat.eqb b 0%float
  then inl (ZeroDivisionError "float division by zero")
  else inr (a / b)%float.

(** [a / b] on integers of any size: the quotient rounded once, to the
    nearest float (ties to even); a zero divisor and a quotient beyond the
    floats raise. *)
Definition int_truediv (a b : Z) : exn + float :=
  if (b =? 0)%Z then inl (ZeroDivisionError "division by zero")
  else
    match a with
    | Z0 => inr (if (b <? 0)%Z then neg_zero else zero)
    | _ =>
        match SFdiv prec emax
                (S754_finite (a <? 0)%Z (Z.to_pos (Z.abs a)) 0)
                (S754_finite (b <? 0)%Z (Z.to_pos (Z.abs b)) 0) with
        | S754_infinity _ =>
            inl (OverflowError
                   "integer division result too large for a float")
        | q => inr (SF2Prim q)
        end
    end.

End Py.

(** Timestamps of bars, seconds since the epoch; a date is a day number. *)
Definition datetime : Type := Z.
Definition date : Type := Z.
Definition date_of (dt : datetime) : date := (dt / 86400)%Z.

(** What [next] asks the broker for: [self.buy(size=size)] or
    [self.close()]. *)
Inductive order_req : Type :=
| Buy (size : Z)
| Close.

(** The messages handed to [log]; the numbers are kept unrendered. *)
Inductive log_msg : Type :=
| BuySignalBar (close atr sma200 : float)
| SellSignalBar (close atr : float)
| Executed (isbuy : bool) (price : float) (size : Z).

(** A field of the summary line. *)
Inductive field : Type :=
| Fixed2 (v : Py.value)       (* rendered with the format [.2f] *)
| Plain (v : Py.value).       (* rendered with [str] *)

(** Everything the program does that is visible from outside. *)
Inductive event : Type :=
| Log (d : date) (ticker : string) (m : log_msg)
| Submit (bar : nat) (req : order_req)
| Summary (final_value sharpe drawdown trades win_rate : field)
| Plot (buys sells : option (list datetime * list float)).

(** A computation: the events emitted, then a value or an exception. *)
Definition M (A : Type) : Type := (list event * (Py.exn + A))%type.

Definition ret {A} (a : A) : M A := ([], inr a).
Definition raise {A} (e : Py.exn) : M A := ([], inl e).
Definition emit (ev : event) : M unit := ([ev], inr tt).
Definition lift {A} (r : Py.exn + A) : M A := ([], r).

Definition bind {A B} (m : M A) (k : A -> M B) : M B :=
  match m with
  | (out, inl e) => (out, inl e)
  | (out, inr a) => let (out', r) := k a in (out ++ out', r)
  end.

Declare Scope py_scope.
Delimit Scope py_scope with py.
Notation "x <- m ;; k" := (bind m (fun x => k))
  (at level 61, m at next level, right associativity) : py_scope.
Notation "m ;; k" := (bind m (fun _ => k))
  (at level 61, right associativity) : py_scope.
Open Scope py_scope.

Definition output {A} (m : M A) : list event := fst m.
Definition outcome {A} (m : M A) : Py.exn + A := snd m.

(** ** The strategy *)

Definition default_ticker : string := "CHILE.SN".

Record params : Type := {
  fast_dema : nat;
  slow_dema : nat;
  order_percentage : float;
  atr_period : nat;
  atr_sma_period : nat;
  trend_period : nat;
  ticker : string
}.

Definition default_params : params := {|
  fast_dema := 10;
  slow_dema := 22;
  order_percentage := 0x1.e666666666666p-1;   (* the float 0.95 *)
  atr_period := 14;
  atr_sma_period := 14;
  trend_period := 200;
  ticker := default_ticker
|}.

(** The values at index 0 of the lines [next] reads. *)
Record lines : Type := {
  close : float;
  crossover : float;
  sma_trend : float;
  atr : float;
  atr_sma : float
}.

(** What the engine shows the strategy on a bar. *)
Record env : Type := {
  now : datetime;
  bar : lines;
  position : Z;        (* [self.position.size] *)
  cash : float         (* [self.broker.get_cash()] *)
}.

(** [self.position] in a condition: a position is true when its size is not
    zero. *)
Definition in_position (e : env) : bool := negb (position e =? 0)%Z.

Record strategy : Type := {
  buy_signals : list (datetime * float);
  sell_signals : list (datetime * float);
  order : option order_req
}.

(** [__init__]: no signal recorded, no order. *)
Definition init : strategy :=
  {| buy_signals := []; sell_signals := []; order := None |}.

Definition set_order (o : option order_req) (s : strategy) : strategy :=
  {| buy_signals := buy_signals s; sell_signals := sell_signals s; order := o |}.

(** [log]: one printed line, dated with the day of the current bar. *)
Definition log (p : params) (dt : datetime) (m : log_msg) : M unit :=
  emit (Log (date_of dt) (ticker p) m).

Inductive order_status : Type :=
| Created | Submitted | Accepted | Partial | Completed
| Canceled | Expired | Margin | Rejected.

(** The order object a notification carries. *)
Record order_info : Type := {
  status : order_status;
  isbuy : bool;
  executed_price : float;
  executed_size : Z
}.

(** [notify_order], called with the datetime [dt] of the current bar. *)
Definition notify_order (p : params) (dt : datetime) (o : order_info)
    (s : strategy) : M strategy :=
  match status o with
  | Submitted | Accepted => ret s
  | Completed =>
      let price := executed_price o in
      log p dt (Executed (isbuy o) price (executed_size o)) ;;
      if isbuy o
      then ret {| buy_signals := buy_signals s ++ [(dt, price)];
                  sell_signals := sell_signals s;
                  order := None |}
      else ret {| buy_signals := buy_signals s;
                  sell_signals := sell_signals s ++ [(dt, price)];
                  order := None |}
  | _ => ret (set_order None s)
  end.

(** The size of a buy: [int((cash * order_percentage) / close)]. *)
Definition buy_size (p : params) (e : env) : Py.exn + Z :=
  match Py.truediv (cash e * order_percentage p)%float (close (bar e)) with
  | inl x => inl x
  | inr q => Py.int q
  end.

(** The condition of the [if] of [next]. *)
Definition entry_signal (e : env) : bool :=
  negb (in_position e)
  && Py.gt (crossover (bar e)) 0%float
  && Py.gt (close (bar e)) (sma_trend (bar e))
  && Py.gt (atr (bar e)) (atr_sma (bar e)).

(** The condition of the [elif] of [next]. *)
Definition exit_signal (e : env) : bool :=
  in_position e
  && Py.lt (crossover (bar e)) 0%float
  && Py.gt (atr (bar e)) (atr_sma (bar e)).

(** [next]: the new strategy object and the order submitted, if any. *)
Definition next (p : params) (e : env) (s : strategy)
    : M (strategy * option order_req) :=
  if entry_signal e then
    log p (now e)
        (BuySignalBar (close (bar e)) (atr (bar e)) (sma_trend (bar e))) ;;
    size <- lift (buy_size p e) ;;
    if (0 <? size)%Z
    then ret (set_order (Some (Buy size)) s, Some (Buy size))
    else ret (s, None)
  else if exit_signal e then
    log p (now e) (SellSignalBar (close (bar e)) (atr (bar e))) ;;
    ret (set_order (Some Close) s, Some Close)
  else ret (s, None).

(** ** The engine's loop around the strategy *)

(** Modelled from the spec: the lookback, in bars, of each indicator that
    [__init__] declares.  The indicators belong to the external backtesting
    library, whose code is not part of the repository; an indicator is
    undefined while fewer bars than its lookback have been seen.  A DEMA of
    period [n] is an EMA of an EMA, both of period [n]. *)
Definition dema_minperiod (period : nat) : nat := 2 * period - 1.

(** Modelled from the spec: a crossover compares two lines on this bar and
    on the one before. *)
Definition crossover_minperiod (a b : nat) : nat := S (Nat.max a b).

(** Modelled from the spec: the true range looks one bar back, and the ATR
    averages [period] true ranges. *)
Definition atr_minperiod (period : nat) : nat := S period.

(** Modelled from the spec: a moving average of [period] values of a line
    that itself needs [source] bars. *)
Definition sma_minperiod (source period : nat) : nat := source + period - 1.

(** Modelled from the spec: the warm-up of the strategy, the longest
    lookback of its indicators; no decision is taken before all indicators
    are defined. *)
Definition minperiod (p : params) : nat :=
  Nat.max
    (Nat.max
       (crossover_minperiod (dema_minperiod (fast_dema p))
                            (dema_minperiod (slow_dema p)))
       (sma_minperiod (atr_minperiod (atr_period p)) (atr_sma_period p)))
    (sma_minperiod 1 (trend_period p)).

(** One bar as the engine presents it: the order notifications it delivers
    on that bar, and the data [next] can read.  Positions, cash, indicator
    values and notifications are the engine's and enter as data. *)
Record tick : Type := {
  notifications : list order_info;
  view : env
}.

(** The notifications of a bar, handed to [notify_order] one by one. *)
Fixpoint deliver (p : params) (dt : datetime) (l : list order_info)
    (s : strategy) : M strategy :=
  match l with
  | [] => ret s
  | o :: l' => s' <- notify_order p dt o s ;; deliver p dt l' s'
  end.

(** Modelled from the spec: the engine's step on bar number [len] (counted
    from 1).  The engine, not part of the repository, goes through the bars
    in order; on a bar it first delivers the notifications of the order
    state transitions, then invokes the strategy: [next] once [len] bars
    fill every lookback, and before that the library's [prenext], which
    does nothing here. *)
Definition on_bar (p : params) (len : nat) (tk : tick) (s : strategy)
    : M strategy :=
  s1 <- deliver p (now (view tk)) (notifications tk) s ;;
  if len <? minperiod p then ret s1          (* prenext *)
  else
    r <- next p (view tk) s1 ;;
    match snd r with
    | Some req => emit (Submit len req) ;; ret (fst r)
    | None => ret (fst r)
    end.

(** Modelled from the spec: the engine's run over the bars that follow the
    first [len] ones; an exception of the strategy ends it. *)
Fixpoint run_from (p : params) (len : nat) (feed : list tick) (s : strategy)
    : M strategy :=
  match feed with
  | [] => ret s
  | tk :: feed' =>
      s' <- on_bar p (S len) tk s ;; run_from p (S len) feed' s'
  end.

(** A whole run, from the strategy object [__init__] builds. *)
Definition run (p : params) (feed : list tick) : M strategy :=
  run_from p 0 feed init.

(** ** The report *)

(** What the analyzers hold after the run.  [sharperatio] is [None] when the
    analyzer could not compute a ratio.  [total_total] and [won_total] are
    the entries [total.total] and [won.total] of the trade analysis, [None]
    when the analysis has no such entry: the analysis is closed after the
    run, and reading a missing entry raises [KeyError].  The trade analyzer
    creates [total.total] at the start and [won.total] when a first trade
    is closed. *)
Record analyzers : Type := {
  sharperatio : option float;
  max_drawdown : float;
  total_total : option Z;
  won_total : option Z
}.

(** A finished engine run: the bars it fed the strategy, the analyzers and
    the broker's final value. *)
Record backtest : Type := {
  feed : list tick;
  analysis : analyzers;
  final_value : float
}.

(** [252**0.5], the float 15.874507866387544. *)
Definition sqrt_252 : float := PrimFloat.sqrt 252.

Definition of_option (o : option float) : Py.value :=
  match o with
  | Some f => Py.PyFloat f
  | None => Py.PyNone
  end.

(** [ann_sr = sr * (252**0.5) if sr else None] *)
Definition annualized (sr : option float) : option float :=
  match sr with
  | Some f =>
      if Py.truthy (Py.PyFloat f) then Some (f * sqrt_252)%float else None
  | None => None
  end.

(** Reading an entry of the closed trade analysis: [trades.total.total],
    [trades.won.total]. *)
Definition entry (key : string) (x : option Z) : Py.exn + Z :=
  match x with
  | Some z => inr z
  | None => inl (Py.KeyError key)
  end.

(** [x or 0] for an integer [x]. *)
Definition or_zero (x : Z) : Z :=
  if Py.truthy (Py.PyInt x) then x else 0%Z.

(** [win_rate = won/total*100 if total else 0] *)
Definition win_rate (won total : Z) : Py.exn + Py.value :=
  if Py.truthy (Py.PyInt total)
  then match Py.int_truediv won total with
       | inr q => inr (Py.PyFloat (q * 100)%float)
       | inl x => inl x
       end
  else inr (Py.PyInt 0).

(** The format [.2f]: numbers only. *)
Definition format_2f (v : Py.value) : Py.exn + field :=
  match v with
  | Py.PyNone =>
      inl (Py.TypeError
             "unsupported format string passed to NoneType.__format__")
  | _ => inr (Fixed2 v)
  end.

(** The f-string of the summary line, its fields rendered left to right. *)
Definition summary (value : float) (ann_sr : option float) (dd : float)
    (total : Z) (rate : Py.value) : M event :=
  f1 <- lift (format_2f (Py.PyFloat value)) ;;
  f2 <- lift (format_2f (of_option ann_sr)) ;;
  f3 <- lift (format_2f (Py.PyFloat dd)) ;;
  f5 <- lift (format_2f rate) ;;
  ret (Summary f1 f2 f3 (Plain (Py.PyInt total)) f5).

(** The two coordinate lists of the markers (the unzipped signals), under
    [if signals:]. *)
Definition markers (signals : list (datetime * float))
    : option (list datetime * list float) :=
  match signals with
  | [] => None
  | _ => Some (split signals)
  end.

(** [full_backtest], given what the engine does with the data frame. *)
Definition full_backtest (c : backtest) : M unit :=
  strat <- run default_params (feed c) ;;
  let sr := sharperatio (analysis c) in
  let ann_sr := annualized sr in
  let dd := max_drawdown (analysis c) in
  total_entry <- lift (entry "total" (total_total (analysis c))) ;;
  let total := or_zero total_entry in
  won_entry <- lift (entry "won" (won_total (analysis c))) ;;
  let won := or_zero won_entry in
  rate <- lift (win_rate won total) ;;
  line <- summary (final_value c) ann_sr dd total rate ;;
  emit line ;;
  emit (Plot (markers (buy_signals strat)) (markers (sell_signals strat))).

(** ** The program *)

Section Main.

(** The data frame, the download and the engine are external. *)
Variable dataframe : Type.
Variable empty : dataframe -> bool.              (* [df.empty] *)
Variable prepare : dataframe -> dataframe.       (* column selection and renaming *)
Variable cerebro : dataframe -> backtest.        (* the engine run over the frame *)

(** [__main__], from the result of the download on. *)
Definition main (df : dataframe) : M unit :=
  if empty df
  then raise (Py.ValueError ("No data for " ++ default_ticker))
  else full_backtest (cerebro (prepare df)).

End Main.

(** ** Observations on computations *)

(** The order a call of [next] submits, or the exception it raises. *)
Definition submitted (m : M (strategy * option order_req))
    : Py.exn + option order_req :=
  match outcome m with
  | inr r => inr (snd r)
  | inl x => inl x
  end.

(** [next] only logs; submissions are recorded by the loop around it. *)
Definition is_log (ev : event) : Prop :=
  match ev with
  | Log _ _ _ => True
  | _ => False
  end.

(** The run itself emits log lines and submissions only. *)
Definition is_trading (ev : event) : Prop :=
  match ev with
  | Log _ _ _ | Submit _ _ => True
  | _ => False
  end.

(** The exceptions raised by an operation of the run or of the report (none
    of them by a [raise] statement of the program). *)
Definition runtime_error (x : Py.exn) : Prop :=
  x = Py.ZeroDivisionError "float division by zero" \/
  x = Py.ValueError "cannot convert float NaN to integer" \/
  x = Py.OverflowError "cannot convert float infinity to integer" \/
  x = Py.TypeError "unsupported format string passed to NoneType.__format__"
  \/
  x = Py.KeyError "total" \/
  x = Py.KeyError "won" \/
  x = Py.OverflowError "integer division result too large for a float".

(** Two strategy objects agree when they differ at most in their signal
    lists. *)
Definition agree (s1 s2 : strategy) : Prop := order s1 = order s2.

(** Two computations agree when they emit the same events and end alike. *)
Definition agree_m (m1 m2 : M strategy) : Prop :=
  output m1 = output m2 /\
  match outcome m1, outcome m2 with
  | inr s1, inr s2 => agree s1 s2
  | inl x1, inl x2 => x1 = x2
  | _, _ => False
  end.

(** The same run with another answer of the Sharpe analyzer. *)
Definition with_sharpe (sr : option float) (c : backtest) : backtest :=
  {| feed := feed c;
     analysis := {| sharperatio := sr;
                    max_drawdown := max_drawdown (analysis c);
                    total_total := total_total (analysis c);
                    won_total := won_total (analysis c) |};
     final_value := final_value c |}.

(** ** Sample bars, feeds and runs *)

Definition bar_100 : lines :=
  {| close := 100; crossover := 1; sma_trend := 90; atr := 2; atr_sma := 1 |}.

Definition flat_10000 : env :=
  {| now := 1700000000%Z; bar := bar_100; position := 0; cash := 10000 |}.

Definition bar_down : lines :=
  {| close := 100; crossover := -1; sma_trend := 90; atr := 2; atr_sma := 1 |}.

Definition long_95 : env :=
  {| now := 1700086400%Z; bar := bar_down; position := 95; cash := 490.5 |}.

Definition day (i : nat) : datetime := (1700000000 + 86400 * Z.of_nat i)%Z.

Definition bar_quiet : lines :=
  {| close := 100; crossover := 0; sma_trend := 90; atr := 2; atr_sma := 1 |}.

(** A bar on which the engine shows no position and a cash of 10000. *)
Definition flat_tick (l : lines) (notes : list order_info) (i : nat) : tick :=
  {| notifications := notes;
     view := {| now := day i; bar := l; position := 0; cash := 10000 |} |}.

(** 199 bars without a signal. *)
Definition warm_up : list tick := map (flat_tick bar_quiet []) (seq 1 199).

(** 200 bars, the last one with an entry signal. *)
Definition feed_200 : list tick := warm_up ++ [flat_tick bar_100 [] 200].

(** A notification of an order that is not executed yet. *)
Definition note (st : order_status) (b : bool) : order_info :=
  {| status := st; isbuy := b; executed_price := 0; executed_size := 0 |}.

Definition filled (b : bool) (price : float) : order_info :=
  {| status := Completed; isbuy := b; executed_price := price;
     executed_size := 95 |}.

Definition with_signals : strategy :=
  {| buy_signals := [(day 201, 101%float)];
     sell_signals := [(day 251, 99%float)];
     order := None |}.

(** A bar on which the engine shows a position and the cash left. *)
Definition held_tick (l : lines) (notes : list order_info) (i : nat)
    (size : Z) (c : float) : tick :=
  {| notifications := notes;
     view := {| now := day i; bar := l; position := size; cash := c |} |}.

(** The notifications of an order executed on the bar after its
    submission. *)
Definition fill (b : bool) (price : float) (size : Z) : list order_info :=
  [note Submitted b; note Accepted b;
   {| status := Completed; isbuy := b; executed_price := price;
      executed_size := size |}].

(** Two round trips after the warm-up: 95 shares bought at 101 and sold at
    105, then 98 shares bought at 100.5 and sold at 97. *)
Definition two_trades : backtest :=
  {| feed :=
       warm_up ++
       [flat_tick bar_100 [] 200;
        held_tick bar_quiet (fill true 101 95) 201 95 395.5;
        held_tick bar_down [] 202 95 395.5;
        held_tick bar_quiet (fill false 105 (-95)) 203 0 10360.5;
        held_tick bar_100 [] 204 0 10360.5;
        held_tick bar_quiet (fill true 100.5 98) 205 98 501.5;
        held_tick bar_down [] 206 98 501.5;
        held_tick bar_quiet (fill false 97 (-98)) 207 0 9998];
     analysis := {| sharperatio := Some 0.125%float; max_drawdown := 3.5;
                    total_total := Some 2%Z; won_total := Some 1%Z |};
     final_value := 9998 |}.

(** The run of [two_trades] with a Sharpe analyzer that has no ratio. *)
Definition no_ratio : backtest := with_sharpe None two_trades.

(** One trade, bought on bar 201 and still open when the data ends: the
    trade analysis counts it in [total.total] and has no [won] entry. *)
Definition one_open_trade : backtest :=
  {| feed :=
       warm_up ++
       [flat_tick bar_100 [] 200;
        held_tick bar_quiet (fill true 101 95) 201 95 395.5;
        held_tick bar_quiet [] 202 95 395.5;
        held_tick bar_quiet [] 203 95 395.5];
     analysis := {| sharperatio := Some 0.125%float; max_drawdown := 1.5;
                    total_total := Some 1%Z; won_total := None |};
     final_value := 10185.5 |}.

(** Two trades: the first closed with a profit on bar 203, the second
    bought on bar 205 and still open when the data ends.  The trade
    analysis counts both in [total.total] and the first in [won.total]. *)
Definition second_trade_open : backtest :=
  {| feed :=
       warm_up ++
       [flat_tick bar_100 [] 200;
        held_tick bar_quiet (fill true 101 95) 201 95 395.5;
        held_tick bar_down [] 202 95 395.5;
        held_tick bar_quiet (fill false 105 (-95)) 203 0 10360.5;
        held_tick bar_100 [] 204 0 10360.5;
        held_tick bar_quiet (fill true 100.5 98) 205 98 501.5;
        held_tick bar_quiet [] 206 98 501.5];
     analysis := {| sharperatio := Some 0.125%float; max_drawdown := 2;
                    total_total := Some 2%Z; won_total := Some 1%Z |};
     final_value := 10301.5 |}.

(** A frame as the list of its closing prices. *)
Definition no_rows (df : list float) : bool :=
  match df with
  | [] => true
  | _ => false
  end.

(** ** The data frame of the download *)

(** A column of prices or volumes, one value per row. *)
Definition series : Type := list float.

(** The columns of a frame: labelled by a name, or, in a download laid out
    for several tickers, by the two levels (field, ticker).  Labels are taken
    to be distinct, as they are in a download. *)
Inductive columns : Type :=
| Flat (cols : list (string * series))
| TwoLevel (cols : list ((string * string) * series)).

Record frame : Type := {
  index : list datetime;
  labelled : columns
}.

(** [ticker in df.columns.levels[1]], every label of the level being in
    use. *)
Definition has_ticker (t : string) (cols : list ((string * string) * series))
    : bool :=
  existsb (fun c => String.eqb (snd (fst c)) t) cols.

(** [df.xs(ticker, axis=1, level=1)]: the columns of the ticker, in their
    order, labelled by their field alone. *)
Definition xs (t : string) (cols : list ((string * string) * series))
    : list (string * series) :=
  map (fun c => (fst (fst c), snd c))
      (filter (fun c => String.eqb (snd (fst c)) t) cols).

(** [df[name]] on flat columns. *)
Fixpoint column (name : string) (cols : list (string * series))
    : option series :=
  match cols with
  | [] => None
  | (n, v) :: cols' => if String.eqb n name then Some v else column name cols'
  end.

(** [df[name] = v] on flat columns: the column is replaced where it is, or
    added after the last one. *)
Fixpoint assign (name : string) (v : series) (cols : list (string * series))
    : list (string * series) :=
  match cols with
  | [] => [(name, v)]
  | (n, x) :: cols' =>
      if String.eqb n name then (n, v) :: cols'
      else (n, x) :: assign name v cols'
  end.

(** [if 'Adj Close' in df.columns: df['Close'] = df['Adj Close']] *)
Definition adopt_adj_close (cols : list (string * series))
    : list (string * series) :=
  match column "Adj Close" cols with
  | Some v => assign "Close" v cols
  | None => cols
  end.

(** The mapping handed to [rename]. *)
Definition mapper : list (string * string) :=
  [("Open", "open"); ("High", "high"); ("Low", "low");
   ("Close", "close"); ("Volume", "volume")]%string.

(** A label under a mapping: the value of its key, or the label itself
    when it is no key. *)
Fixpoint translate (d : list (string * string)) (n : string) : string :=
  match d with
  | [] => n
  | (k, v) :: d' => if String.eqb n k then v else translate d' n
  end.

Definition rename_label (n : string) : string := translate mapper n.

(** [df.rename(columns={...}, inplace=True)] on flat columns. *)
Definition rename (cols : list (string * series)) : list (string * series) :=
  map (fun c => (rename_label (fst c), snd c)) cols.

(** The frame handed to [full_backtest], from a download that is not empty.
    Two-level columns that do not carry the ticker are left as they are by
    the first test; the assignment and the renaming then act on two-level
    labels, which this model leaves out: [None] stands for that case. *)
Definition prepare_frame (df : frame) : option frame :=
  match labelled df with
  | Flat cols =>
      Some {| index := index df;
              labelled := Flat (rename (adopt_adj_close cols)) |}
  | TwoLevel cols =>
      if has_ticker default_ticker cols
      then Some {| index := index df;
                   labelled :=
                     Flat (rename (adopt_adj_close (xs default_ticker cols))) |}
      else None
  end.

(** The series a download holds for a field of the ticker. *)
Definition field_of (df : frame) (name : string) : option series :=
  match labelled df with
  | Flat cols => column name cols
  | TwoLevel cols => column name (xs default_ticker cols)
  end.

(** The labels of the columns of a frame whose columns are flat. *)
Definition labels (df : frame) : list string :=
  match labelled df with
  | Flat cols => map fst cols
  | TwoLevel _ => []
  end.

(** ** Observations on runs *)

(** A notification that ends the life of an order in [notify_order]: any
    status but [Submitted] and [Accepted]. *)
Definition clears (o : order_info) : bool :=
  match status o with
  | Submitted | Accepted => false
  | _ => true
  end.

(** A notification of a completed order of the direction [b] (buy for
    [true]). *)
Definition completed (b : bool) (o : order_info) : bool :=
  match status o with
  | Completed => Bool.eqb (isbuy o) b
  | _ => false
  end.

(** The completed orders of one direction among the notifications of a
    bar, each as the pair (datetime of the bar, executed price). *)
Definition fills_of (b : bool) (tk : tick) : list (datetime * float) :=
  map (fun o => (now (view tk), executed_price o))
      (filter (completed b) (notifications tk)).

(** The completed orders of one direction over a feed, in their order. *)
Definition fills (b : bool) (feed : list tick) : list (datetime * float) :=
  flat_map (fills_of b) feed.

(** The part of [full_backtest] that follows the run, in closed form: the
    two lookups in the trade analysis, the win rate, the summary line and
    the plot, each step reached only when the ones before it returned. *)
Definition after_run (c : backtest) (strat : strategy) : M unit :=
  match total_total (analysis c), won_total (analysis c) with
  | None, _ => raise (Py.KeyError "total")
  | Some _, None => raise (Py.KeyError "won")
  | Some t, Some w =>
      match win_rate (or_zero w) (or_zero t) with
      | inl x => raise x
      | inr rate =>
          match annualized (sharperatio (analysis c)) with
          | None =>
              raise (Py.TypeError
                       "unsupported format string passed to NoneType.__format__")
          | Some a =>
              ([Summary (Fixed2 (Py.PyFloat (final_value c)))
                        (Fixed2 (Py.PyFloat a))
                        (Fixed2 (Py.PyFloat (max_drawdown (analysis c))))
                        (Plain (Py.PyInt (or_zero t)))
                        (Fixed2 rate);
                Plot (markers (buy_signals strat))
                     (markers (sell_signals strat))],
               inr tt)
          end
      end
  end.

(** The trades closed in a run.  The strategy sells with [self.close()]
    only, which closes the whole position, so every completed sell closes
    one trade. *)
Definition closed_trades (c : backtest) : Z :=
  Z.of_nat (List.length (fills false (feed c))).

(** Modelled from the spec: a notification that ends an order at the
    broker (completed, or refused for lack of cash, rejected, cancelled,
    expired).  The broker is part of the external engine. *)
Definition resolved (o : order_info) : bool :=
  match status o with
  | Completed | Canceled | Expired | Margin | Rejected => true
  | _ => false
  end.

(** Whether the strategy submits an order on bar number [len].  [next]
    reads nothing of the strategy object, so the question can be put to
    [init]. *)
Definition submits (p : params) (len : nat) (tk : tick) : bool :=
  negb (len <? minperiod p)
  && match submitted (next p (view tk) init) with
     | inr (Some _) => true
     | _ => false
     end.

(** Modelled from the spec: the engine's handling of orders.  An order
    submitted on a bar is executed on the following bar (or refused
    there), and the notification of that transition is delivered on that
    bar, before [next] runs.  [pending] tells whether the bar before the
    feed submitted an order. *)
Fixpoint settles (p : params) (len : nat) (pending : bool)
    (feed : list tick) : bool :=
  match feed with
  | [] => true
  | tk :: feed' =>
      implb pending (existsb resolved (notifications tk))
      && settles p (S len) (submits p (S len) tk) feed'
  end.

(** A bar on which the size of a buy can be computed: the close is not
    zero and the quotient is a finite number. *)
Definition sizeable (p : params) (tk : tick) : Prop :=
  PrimFloat.eqb (close (bar (view tk))) 0 = false /\
  Py.floor (cash (view tk) * order_percentage p / close (bar (view tk)))
  <> None.

(** [sizeable], as a test. *)
Definition sizeableb (p : params) (tk : tick) : bool :=
  negb (PrimFloat.eqb (close (bar (view tk))) 0)
  && match Py.floor (cash (view tk) * order_percentage p
                     / close (bar (view tk))) with
     | Some _ => true
     | None => false
     end.

(** A flat bar with an entry signal and a close of zero, under a negative
    average. *)
Definition zero_close : env :=
  {| now := 1700000000%Z;
     bar := {| close := 0; crossover := 1; sma_trend := -1;
               atr := 2; atr_sma := 1 |};
     position := 0; cash := 10000 |}.

(** A bar in a position whose ATR is not a number yet. *)
Definition nan_atr : env :=
  {| now := 1700000000%Z;
     bar := {| close := 100; crossover := -1; sma_trend := 90;
               atr := nan; atr_sma := 1 |};
     position := 95; cash := 395.5 |}.

(** A download as the data source lays it out for one ticker. *)
Definition download_two_level : frame :=
  {| index := [day 1; day 2];
     labelled :=
       TwoLevel [(("Adj Close", "CHILE.SN")%string, [99; 100]%float);
                 (("Close", "CHILE.SN")%string, [101; 102]%float);
                 (("High", "CHILE.SN")%string, [103; 104]%float);
                 (("Low", "CHILE.SN")%string, [97; 98]%float);
                 (("Open", "CHILE.SN")%string, [100; 101]%float);
                 (("Volume", "CHILE.SN")%string, [5000; 6000]%float)] |}.

(** * Properties *)

(** ** The effect monad *)

Lemma output_bind {A B} (m : M A) (k : A -> M B) :
  output (bind m k) =
  output m ++ match outcome m with inr a => output (k a) | inl _ => [] end.
Proof.
  destruct m as [out [x | a]]; unfold output, outcome, bind; simpl.
  - now rewrite app_nil_r.
  - now destruct (k a).
Qed.

Lemma outcome_bind {A B} (m : M A) (k : A -> M B) :
  outcome (bind m k) =
  match outcome m with inr a => outcome (k a) | inl x => inl x end.
Proof.
  destruct m as [out [x | a]]; unfold outcome, bind; simpl; trivial.
  now destruct (k a).
Qed.

Lemma in_output_bind {A B} (m : M A) (k : A -> M B) (ev : event) :
  In ev (output (bind m k)) ->
  In ev (output m) \/ exists a, outcome m = inr a /\ In ev (output (k a)).
Proof.
  rewrite output_bind, in_app_iff. intros [H | H]; [now left |].
  destruct (outcome m) as [x | a]; [contradiction |]. right. now exists a.
Qed.

(** ** Truncation and floor *)

Lemma quot_positive_iff (n d : Z) :
  (0 < d)%Z -> (0 <? Z.quot n d)%Z = (0 <? n / d)%Z.
Proof.
  intros Hd. destruct (Z.le_gt_cases 0 n) as [Hn | Hn].
  - now rewrite Z.quot_div_nonneg by lia.
  - assert (n / d < 0)%Z by (apply Z.div_lt_upper_bound; lia).
    assert (Z.quot n d <= 0)%Z by (apply Z.quot_le_upper_bound; lia).
    destruct (Z.ltb_spec 0 (Z.quot n d)), (Z.ltb_spec 0 (n / d)); lia.
Qed.

Lemma quot_floor_positive (n d : Z) :
  (0 < d)%Z -> (0 < n / d)%Z -> Z.quot n d = (n / d)%Z.
Proof.
  intros Hd H. apply Z.quot_div_nonneg; [| lia].
  destruct (Z.le_gt_cases 0 n) as [Hn | Hn]; [assumption |].
  assert (n / d < 0)%Z by (apply Z.div_lt_upper_bound; lia). lia.
Qed.

Lemma fraction_denominator (f : float) (n d : Z) :
  Py.fraction f = Some (n, d) -> (0 < d)%Z.
Proof.
  unfold Py.fraction. destruct (Prim2SF f) as [s | s | | s m e]; try discriminate.
  - intros [= _ <-]. lia.
  - intros [= _ <-]. apply Z.pow_pos_nonneg; lia.
Qed.

(** Where the floor exists, [int] returns; it is positive exactly when the
    floor is, and then the two agree. *)
Lemma int_of_floor (f : float) (n : Z) :
  Py.floor f = Some n ->
  exists t, Py.int f = inr t /\
            (0 <? t)%Z = (0 <? n)%Z /\ ((0 < n)%Z -> t = n).
Proof.
  unfold Py.floor, Py.int. intros H.
  destruct (Py.fraction f) as [[a d] |] eqn:Hf; [| discriminate].
  injection H as <-.
  pose proof (fraction_denominator _ Hf) as Hd.
  assert (Hint : match Prim2SF f with
                 | S754_nan | S754_infinity _ => False
                 | _ => True
                 end).
  { unfold Py.fraction in Hf. now destruct (Prim2SF f). }
  exists (Z.quot a d). split; [| split].
  - now destruct (Prim2SF f).
  - now apply quot_positive_iff.
  - now apply quot_floor_positive.
Qed.

(** ** The decision function *)

Lemma next_entry (p : params) (e : env) (s : strategy) :
  entry_signal e = true ->
  next p e s =
  (log p (now e)
       (BuySignalBar (close (bar e)) (atr (bar e)) (sma_trend (bar e))) ;;
   size <- lift (buy_size p e) ;;
   if (0 <? size)%Z
   then ret (set_order (Some (Buy size)) s, Some (Buy size))
   else ret (s, None)).
Proof. unfold next. now intros ->. Qed.

Lemma in_position_flat (e : env) : position e = 0%Z -> in_position e = false.
Proof. unfold in_position. now intros ->. Qed.

Lemma in_position_open (e : env) : position e <> 0%Z -> in_position e = true.
Proof.
  unfold in_position. intros H.
  now destruct (Z.eqb_spec (position e) 0).
Qed.

(** Whatever the strategy object holds, [next] logs and submits the same. *)
Lemma next_reads_no_state (p : params) (e : env) (s1 s2 : strategy) :
  output (next p e s1) = output (next p e s2) /\
  submitted (next p e s1) = submitted (next p e s2).
Proof.
  unfold submitted, next, log, emit, lift, bind, ret.
  destruct (entry_signal e).
  - destruct (buy_size p e) as [x | n]; simpl; [easy |].
    destruct (0 <? n)%Z; simpl; auto.
  - destruct (exit_signal e); simpl; auto.
Qed.

(** The only field [next] writes is [order], and only when it submits. *)
Lemma next_state (p : params) (e : env) (s : strategy)
    (r : strategy * option order_req) :
  outcome (next p e s) = inr r ->
  fst r = match snd r with
          | Some req => set_order (Some req) s
          | None => s
          end.
Proof.
  unfold next, log, emit, lift, bind, ret.
  destruct (entry_signal e).
  - destruct (buy_size p e) as [x | n]; simpl; [discriminate |].
    destruct (0 <? n)%Z; simpl; now intros [= <-].
  - destruct (exit_signal e); simpl; now intros [= <-].
Qed.

Lemma next_only_logs (p : params) (e : env) (s : strategy) :
  Forall is_log (output (next p e s)).
Proof.
  unfold next, log, emit, lift, bind, ret.
  destruct (entry_signal e).
  - destruct (buy_size p e) as [x | n]; simpl; [repeat constructor |].
    destruct (0 <? n)%Z; simpl; repeat constructor.
  - destruct (exit_signal e); simpl; repeat constructor.
Qed.

(** C3: when [next] runs on a flat bar with an upward cross, the close
    above the 200-bar average and the ATR above its average, and the
    quotient [cash * 0.95 / close] is a finite number, it submits a buy of
    [floor (cash * 0.95 / close)] when that floor is positive, and submits
    nothing (and leaves the strategy as it was) when it is not. *)
Theorem entry_buys_floor_of_cash :
  forall (e : env) (s : strategy) (n : Z),
    position e = 0%Z ->
    Py.gt (crossover (bar e)) 0 = true ->
    Py.gt (close (bar e)) (sma_trend (bar e)) = true ->
    Py.gt (atr (bar e)) (atr_sma (bar e)) = true ->
    PrimFloat.eqb (close (bar e)) 0 = false ->
    Py.floor (cash e * order_percentage default_params / close (bar e))
    = Some n ->
    outcome (next default_params e s) =
    inr (if (0 <? n)%Z
         then (set_order (Some (Buy n)) s, Some (Buy n))
         else (s, None)).
Proof.
  intros e s n Hpos Hx Ht Ha Hc Hn.
  rewrite next_entry.
  2:{ unfold entry_signal. now rewrite (in_position_flat _ Hpos), Hx, Ht, Ha. }
  destruct (int_of_floor _ Hn) as (t & Hint & Hsign & Heq).
  assert (Hsize : buy_size default_params e = inr t).
  { unfold buy_size, Py.truediv. now rewrite Hc. }
  unfold log, emit, lift, bind, ret, outcome. rewrite Hsize. simpl.
  rewrite Hsign. destruct (Z.ltb_spec 0 n) as [Hlt | Hle]; simpl; [| trivial].
  now rewrite (Heq Hlt).
Qed.

(** With a cash of 10000 and a close of 100 the buy is of 95 shares. *)
Lemma entry_buys_floor_of_cash_witness :
  outcome (next default_params flat_10000 init) =
  inr (set_order (Some (Buy 95)) init, Some (Buy 95)).
Proof.
  exact (entry_buys_floor_of_cash flat_10000 init (n := 95)
           eq_refl eq_refl eq_refl eq_refl eq_refl eq_refl).
Defined.

(** C5: when it runs on a bar where a position is held, [next] submits the
    order closing the whole position when the crossover is downward and the
    ATR is above its average, and submits nothing in every other case. *)
Theorem exit_closes_position :
  forall (p : params) (e : env) (s : strategy),
    position e <> 0%Z ->
    next p e s =
    if Py.lt (crossover (bar e)) 0 && Py.gt (atr (bar e)) (atr_sma (bar e))
    then ([Log (date_of (now e)) (ticker p)
               (SellSignalBar (close (bar e)) (atr (bar e)))],
          inr (set_order (Some Close) s, Some Close))
    else ([], inr (s, None)).
Proof.
  intros p e s Hpos. unfold next, entry_signal, exit_signal.
  rewrite (in_position_open _ Hpos). simpl.
  now destruct (Py.lt _ _ && Py.gt _ _).
Qed.

(** A position of 95 shares on a bar with a downward cross is closed. *)
Lemma exit_closes_position_witness :
  next default_params long_95 init =
  ([Log 19676%Z default_ticker (SellSignalBar 100 2)],
   inr (set_order (Some Close) init, Some Close)).
Proof.
  apply (exit_closes_position default_params long_95 init). discriminate.
Defined.

(** An order of [next] tells the position it was decided on. *)
Lemma next_submit_position (p : params) (e : env) (s : strategy)
    (r : strategy * option order_req) (req : order_req) :
  outcome (next p e s) = inr r -> snd r = Some req ->
  match req with
  | Buy n => position e = 0%Z /\ (0 < n)%Z
  | Close => position e <> 0%Z
  end.
Proof.
  unfold next, entry_signal, exit_signal, in_position, log, emit, lift, bind, ret.
  destruct (Z.eqb_spec (position e) 0) as [Hz | Hz]; simpl.
  - destruct (Py.gt (crossover (bar e)) 0 && _ && _); simpl.
    + destruct (buy_size p e) as [x | n]; simpl; [discriminate |].
      destruct (Z.ltb_spec 0 n); simpl; intros [= <-]; simpl; [| discriminate].
      intros [= <-]. now split.
    + intros [= <-]. discriminate.
  - destruct (Py.lt (crossover (bar e)) 0 && _); simpl; intros [= <-]; simpl;
      [| discriminate].
    now intros [= <-].
Qed.

(** ** The run *)

Lemma notify_order_only_logs (p : params) (dt : datetime) (o : order_info)
    (s : strategy) :
  Forall is_log (output (notify_order p dt o s)).
Proof.
  unfold notify_order, log, emit, bind, ret.
  destruct (status o); simpl; try constructor;
    destruct (isbuy o); simpl; repeat constructor.
Qed.

Lemma deliver_only_logs (p : params) (dt : datetime) (l : list order_info) :
  forall s, Forall is_log (output (deliver p dt l s)).
Proof.
  induction l as [| o l IH]; intros s; simpl; [constructor |].
  rewrite output_bind. apply Forall_app. split.
  - apply notify_order_only_logs.
  - destruct (outcome _); [constructor | apply IH].
Qed.

Lemma log_is_no_submit (l : list event) (bar : nat) (req : order_req) :
  Forall is_log l -> ~ In (Submit bar req) l.
Proof.
  intros H Hin. rewrite Forall_forall in H. exact (H _ Hin).
Qed.

(** A submission on a bar comes from [next], run on that bar after the
    warm-up. *)
Lemma on_bar_submit (p : params) (len : nat) (tk : tick) (s : strategy)
    (bar : nat) (req : order_req) :
  In (Submit bar req) (output (on_bar p len tk s)) ->
  bar = len /\ minperiod p <= len /\
  exists s1 r, outcome (next p (view tk) s1) = inr r /\ snd r = Some req.
Proof.
  unfold on_bar. intros H.
  apply in_output_bind in H as [H | (s1 & _ & H)].
  { now apply log_is_no_submit in H; [| apply deliver_only_logs]. }
  destruct (Nat.ltb_spec len (minperiod p)) as [Hlt | Hge]; [contradiction |].
  apply in_output_bind in H as [H | (r & Hr & H)].
  { now apply log_is_no_submit in H; [| apply next_only_logs]. }
  destruct (snd r) as [req' |] eqn:Hreq; [| contradiction].
  simpl in H. destruct H as [[= <- <-] | []].
  repeat split; trivial. now exists s1, r.
Qed.

Lemma run_from_submit (p : params) (feed : list tick) :
  forall (len : nat) (s : strategy) (bar : nat) (req : order_req),
    In (Submit bar req) (output (run_from p len feed s)) ->
    len < bar /\ minperiod p <= bar /\
    exists tk s1 r,
      nth_error feed (bar - S len) = Some tk /\
      outcome (next p (view tk) s1) = inr r /\ snd r = Some req.
Proof.
  induction feed as [| tk feed IH]; intros len s bar req H; [contradiction |].
  simpl in H. apply in_output_bind in H as [H | (s' & _ & H)].
  - apply on_bar_submit in H as (-> & Hmin & s1 & r & Hr & Hreq).
    repeat split; [lia | assumption |].
    exists tk, s1, r. now rewrite Nat.sub_diag.
  - apply IH in H as (Hlen & Hmin & tk' & s1 & r & Hnth & Hr & Hreq).
    repeat split; [lia | assumption |].
    exists tk', s1, r. repeat split; trivial.
    replace (bar - S len) with (S (bar - S (S len))) by lia. exact Hnth.
Qed.

(** C6: in every run, an order submitted on a bar is a buy only if the
    position shown on that bar is flat, and a close only if a position is
    open on that bar. *)
Theorem orders_match_position :
  forall (p : params) (feed : list tick) (bar : nat) (req : order_req),
    In (Submit bar req) (output (run p feed)) ->
    exists tk,
      nth_error feed (bar - 1) = Some tk /\
      match req with
      | Buy _ => position (view tk) = 0%Z
      | Close => position (view tk) <> 0%Z
      end.
Proof.
  intros p feed bar req H.
  apply run_from_submit in H as (_ & _ & tk & s1 & r & Hnth & Hr & Hreq).
  exists tk. split; [exact Hnth |].
  pose proof (next_submit_position _ _ _ Hr Hreq) as Hp.
  destruct req; tauto.
Qed.

(** The buy on bar 200 of [feed_200] is decided on a flat position. *)
Lemma orders_match_position_witness :
  exists tk,
    nth_error feed_200 (200 - 1) = Some tk /\ position (view tk) = 0%Z.
Proof.
  apply (@orders_match_position default_params feed_200 200 (Buy 95)).
  vm_compute. auto.
Defined.

(** With the parameters of the program the warm-up is the 200 bars of the
    trend average. *)
Lemma minperiod_default : minperiod default_params = 200.
Proof. reflexivity. Qed.

(** C4 (amended): in every run with the program's parameters, no order is
    submitted on a bar before the 200th; the 200th bar is the first on which
    [next] runs. *)
Theorem no_order_before_bar_200 :
  forall (feed : list tick) (bar : nat) (req : order_req),
    In (Submit bar req) (output (run default_params feed)) -> 200 <= bar.
Proof.
  intros feed bar req H.
  apply run_from_submit in H as (_ & Hmin & _).
  now rewrite minperiod_default in Hmin.
Qed.

(** The buy of [feed_200] is on bar 200, not before. *)
Lemma no_order_before_bar_200_witness :
  In (Submit 200 (Buy 95)) (output (run default_params feed_200)) /\
  200 <= 200.
Proof.
  assert (Hin : In (Submit 200 (Buy 95))
                   (output (run default_params feed_200)))
    by (vm_compute; auto).
  split; [exact Hin |].
  exact (@no_order_before_bar_200 feed_200 200 (Buy 95) Hin).
Defined.

(** C4 as stated fails: the feed of 200 bars above gets a buy on its 200th
    bar, which is one of the first 200. *)
Lemma order_on_bar_200 :
  ~ (forall (feed : list tick) (bar : nat) (req : order_req),
        In (Submit bar req) (output (run default_params feed)) -> 200 < bar).
Proof.
  intros H.
  assert (Hin : In (Submit 200 (Buy 95)) (output (run default_params feed_200)))
    by (vm_compute; auto).
  apply H in Hin. lia.
Qed.

(** ** The signal lists do not flow into decisions *)

Lemma agree_ret (s1 s2 : strategy) : agree s1 s2 -> agree_m (ret s1) (ret s2).
Proof. now split. Qed.

Lemma agree_bind (m1 m2 : M strategy) (k1 k2 : strategy -> M strategy) :
  agree_m m1 m2 ->
  (forall s1 s2, agree s1 s2 -> agree_m (k1 s1) (k2 s2)) ->
  agree_m (bind m1 k1) (bind m2 k2).
Proof.
  intros [Hout Hres] Hk. unfold agree_m.
  rewrite !output_bind, !outcome_bind, Hout.
  destruct (outcome m1) as [x1 | s1], (outcome m2) as [x2 | s2];
    try contradiction; [now split |].
  destruct (Hk s1 s2 Hres) as [Hout' Hres']. now rewrite Hout'.
Qed.

Lemma notify_order_agree (p : params) (dt : datetime) (o : order_info)
    (s1 s2 : strategy) :
  agree s1 s2 -> agree_m (notify_order p dt o s1) (notify_order p dt o s2).
Proof.
  intros H. unfold notify_order, log, emit, bind, ret.
  destruct (status o); try (now split); destruct (isbuy o); now split.
Qed.

Lemma deliver_agree (p : params) (dt : datetime) (l : list order_info) :
  forall s1 s2, agree s1 s2 -> agree_m (deliver p dt l s1) (deliver p dt l s2).
Proof.
  induction l as [| o l IH]; intros s1 s2 H; simpl.
  - now apply agree_ret.
  - apply agree_bind; [now apply notify_order_agree | exact IH].
Qed.

Lemma next_agree (p : params) (e : env) (s1 s2 : strategy) :
  agree s1 s2 ->
  forall r1 r2,
    outcome (next p e s1) = inr r1 -> outcome (next p e s2) = inr r2 ->
    snd r1 = snd r2 /\ agree (fst r1) (fst r2).
Proof.
  intros H r1 r2 H1 H2.
  destruct (next_reads_no_state p e s1 s2) as [_ Hsub].
  unfold submitted in Hsub. rewrite H1, H2 in Hsub. injection Hsub as Hsnd.
  split; [assumption |].
  rewrite (next_state _ _ _ H1), (next_state _ _ _ H2), <- Hsnd.
  now destruct (snd r1).
Qed.

Lemma on_bar_agree (p : params) (len : nat) (tk : tick) (s1 s2 : strategy) :
  agree s1 s2 -> agree_m (on_bar p len tk s1) (on_bar p len tk s2).
Proof.
  intros H. unfold on_bar.
  apply agree_bind; [now apply deliver_agree |].
  clear s1 s2 H. intros s1 s2 H.
  destruct (len <? minperiod p); [now apply agree_ret |].
  destruct (next_reads_no_state p (view tk) s1 s2) as [Hout Hsub].
  pose proof (next_agree p (view tk) H) as Hres.
  unfold agree_m. rewrite !output_bind, !outcome_bind, Hout.
  unfold submitted in Hsub.
  destruct (outcome (next p (view tk) s1)) as [x1 | r1],
           (outcome (next p (view tk) s2)) as [x2 | r2]; try discriminate.
  - injection Hsub as <-. now split.
  - destruct (Hres r1 r2 eq_refl eq_refl) as [Hsnd Hfst].
    rewrite <- Hsnd. now destruct (snd r1).
Qed.

Lemma run_from_agree (p : params) (feed : list tick) :
  forall len s1 s2,
    agree s1 s2 -> agree_m (run_from p len feed s1) (run_from p len feed s2).
Proof.
  induction feed as [| tk feed IH]; intros len s1 s2 H; simpl.
  - now apply agree_ret.
  - apply agree_bind; [now apply on_bar_agree | apply IH].
Qed.

(** C9: a notification of a completed order appends the pair (timestamp of
    the bar, executed price) to [buy_signals] for a buy and to
    [sell_signals] for a sell; and two strategy objects that differ only in
    these lists get the same log lines and the same order from [next], end
    with the same [order] field, and trade alike over any feed. *)
Theorem signal_lists_recorded_not_read :
  (forall p dt o s,
      status o = Completed ->
      outcome (notify_order p dt o s) =
      inr {| buy_signals :=
               if isbuy o then buy_signals s ++ [(dt, executed_price o)]
               else buy_signals s;
             sell_signals :=
               if isbuy o then sell_signals s
               else sell_signals s ++ [(dt, executed_price o)];
             order := None |}) /\
  (forall p e s1 s2,
      order s1 = order s2 ->
      output (next p e s1) = output (next p e s2) /\
      submitted (next p e s1) = submitted (next p e s2) /\
      forall r1 r2,
        outcome (next p e s1) = inr r1 -> outcome (next p e s2) = inr r2 ->
        order (fst r1) = order (fst r2)) /\
  (forall p feed len s1 s2,
      order s1 = order s2 ->
      output (run_from p len feed s1) = output (run_from p len feed s2)).
Proof.
  split; [| split].
  - intros p dt o s H. unfold notify_order, log, emit, bind, ret, outcome.
    rewrite H. now destruct (isbuy o).
  - intros p e s1 s2 H.
    destruct (next_reads_no_state p e s1 s2) as [Hout Hsub].
    repeat split; trivial.
    intros r1 r2 H1 H2. exact (proj2 (@next_agree p e s1 s2 H r1 r2 H1 H2)).
  - intros p feed len s1 s2 H.
    exact (proj1 (@run_from_agree p feed len s1 s2 H)).
Qed.

(** A buy filled at 101 is recorded; a strategy object with recorded
    signals decides and trades like a fresh one. *)
Lemma signal_lists_recorded_not_read_witness :
  outcome (notify_order default_params (day 201) (filled true 101) init) =
  inr {| buy_signals := [(day 201, 101%float)];
         sell_signals := [];
         order := None |} /\
  submitted (next default_params flat_10000 init) =
  submitted (next default_params flat_10000 with_signals) /\
  output (run_from default_params 0 feed_200 init) =
  output (run_from default_params 0 feed_200 with_signals).
Proof.
  destruct signal_lists_recorded_not_read as (Hrec & Hnext & Hrun).
  split; [| split].
  - exact (Hrec default_params (day 201) (filled true 101) init eq_refl).
  - exact (proj1 (proj2 (Hnext default_params flat_10000 init with_signals
                           eq_refl))).
  - exact (Hrun default_params feed_200 0 init with_signals eq_refl).
Defined.

(** ** The report *)

Lemma log_is_trading (l : list event) : Forall is_log l -> Forall is_trading l.
Proof.
  apply Forall_impl. now intros [].
Qed.

Lemma on_bar_trading (p : params) (len : nat) (tk : tick) (s : strategy) :
  Forall is_trading (output (on_bar p len tk s)).
Proof.
  unfold on_bar. rewrite output_bind. apply Forall_app. split.
  { apply log_is_trading, deliver_only_logs. }
  destruct (outcome _) as [x | s1]; [constructor |].
  destruct (len <? minperiod p); [constructor |].
  rewrite output_bind. apply Forall_app. split.
  { apply log_is_trading, next_only_logs. }
  destruct (outcome _) as [x | r]; [constructor |].
  destruct (snd r); repeat constructor.
Qed.

Lemma run_from_trading (p : params) (feed : list tick) :
  forall len s, Forall is_trading (output (run_from p len feed s)).
Proof.
  induction feed as [| tk feed IH]; intros len s; simpl; [constructor |].
  rewrite output_bind. apply Forall_app. split; [apply on_bar_trading |].
  destruct (outcome _); [constructor | apply IH].
Qed.

Lemma int_error (f : float) (x : Py.exn) : Py.int f = inl x -> runtime_error x.
Proof.
  unfold Py.int, runtime_error.
  destruct (Prim2SF f); try destruct (Py.fraction f) as [[n d] |];
    intros [= <-]; auto.
Qed.

Lemma next_error (p : params) (e : env) (s : strategy) (x : Py.exn) :
  outcome (next p e s) = inl x -> runtime_error x.
Proof.
  unfold next, log, emit, lift, bind, ret.
  destruct (entry_signal e); [| destruct (exit_signal e); discriminate].
  destruct (buy_size p e) as [y | n] eqn:Hsize; simpl.
  - intros [= <-]. unfold buy_size, Py.truediv in Hsize.
    destruct (PrimFloat.eqb _ _).
    + injection Hsize as <-. now left.
    + exact (int_error _ Hsize).
  - destruct (0 <? n)%Z; discriminate.
Qed.

Lemma deliver_returns (p : params) (dt : datetime) (l : list order_info) :
  forall s, exists s', outcome (deliver p dt l s) = inr s'.
Proof.
  induction l as [| o l IH]; intros s; simpl; [now exists s |].
  rewrite outcome_bind.
  assert (H : exists s1, outcome (notify_order p dt o s) = inr s1).
  { unfold notify_order, log, emit, bind, ret.
    destruct (status o); try destruct (isbuy o); simpl; eauto. }
  destruct H as [s1 ->]. apply IH.
Qed.

Lemma run_from_error (p : params) (feed : list tick) (x : Py.exn) :
  forall len s, outcome (run_from p len feed s) = inl x -> runtime_error x.
Proof.
  induction feed as [| tk feed IH]; intros len s; simpl; [discriminate |].
  rewrite outcome_bind.
  destruct (outcome (on_bar p (S len) tk s)) as [y | s'] eqn:Hbar;
    [| apply IH].
  intros [= <-]. unfold on_bar in Hbar. rewrite outcome_bind in Hbar.
  destruct (deliver_returns p (now (view tk)) (notifications tk) s) as [s1 Hs1].
  rewrite Hs1 in Hbar.
  destruct (S len <? minperiod p); [discriminate |].
  rewrite outcome_bind in Hbar.
  destruct (outcome (next p (view tk) s1)) as [z | r] eqn:Hnext.
  - injection Hbar as <-. exact (next_error _ _ _ Hnext).
  - destruct (snd r); discriminate.
Qed.

(** [x or 0] gives [x] back for every integer. *)
Lemma or_zero_id (z : Z) : or_zero z = z.
Proof.
  unfold or_zero. simpl. now destruct (Z.eqb_spec z 0).
Qed.

(** A win rate is a number, which the format [.2f] renders. *)
Lemma win_rate_formats (won total : Z) (rate : Py.value) :
  win_rate won total = inr rate -> format_2f rate = inr (Fixed2 rate).
Proof.
  unfold win_rate.
  destruct (Py.truthy _); [destruct (Py.int_truediv _ _) |];
    intros [= <-]; reflexivity.
Qed.

(** The exceptions of the win rate. *)
Lemma win_rate_error (won total : Z) (x : Py.exn) :
  win_rate won total = inl x ->
  x = Py.OverflowError "integer division result too large for a float".
Proof.
  unfold win_rate, Py.int_truediv, Py.truthy.
  destruct (total =? 0)%Z; cbn [negb]; [discriminate |].
  destruct won; [discriminate | |];
    match goal with
    | |- context [SFdiv ?a ?b ?u ?v] => destruct (SFdiv a b u v)
    end; cbv beta iota; now intros [= <-].
Qed.

Lemma bind_ext {A B} (m : M A) (k1 k2 : A -> M B) :
  (forall a, k1 a = k2 a) -> bind m k1 = bind m k2.
Proof.
  intros H. destruct m as [out [x | a]]; simpl; [reflexivity |].
  now rewrite H.
Qed.

(** [full_backtest] is the run followed by the report in closed form. *)
Lemma full_backtest_eq (c : backtest) :
  full_backtest c = bind (run default_params (feed c)) (after_run c).
Proof.
  unfold full_backtest. apply bind_ext. intros strat.
  unfold after_run, entry, lift, raise.
  destruct (total_total (analysis c)) as [t |]; [| reflexivity].
  destruct (won_total (analysis c)) as [w |]; [| reflexivity].
  simpl.
  destruct (win_rate (or_zero w) (or_zero t)) as [x | rate] eqn:Hrate;
    [reflexivity |].
  simpl. unfold summary, lift, bind, ret. simpl.
  rewrite (win_rate_formats _ _ Hrate).
  now destruct (annualized (sharperatio (analysis c))).
Qed.

(** With no annualized ratio, [full_backtest] prints nothing beyond the
    lines of the run and ends with an exception. *)
Lemma full_backtest_unformatted (c : backtest) :
  annualized (sharperatio (analysis c)) = None ->
  output (full_backtest c) = output (run default_params (feed c)) /\
  exists x, outcome (full_backtest c) = inl x.
Proof.
  intros H. rewrite full_backtest_eq, output_bind, outcome_bind.
  destruct (outcome (run default_params (feed c))) as [y | s].
  { rewrite app_nil_r. eauto. }
  unfold after_run. rewrite H.
  destruct (total_total (analysis c)) as [t |],
           (won_total (analysis c)) as [w |]; simpl;
    try destruct (win_rate (or_zero w) (or_zero t)); simpl;
    rewrite app_nil_r; eauto.
Qed.

Lemma after_run_error (c : backtest) (s : strategy) (x : Py.exn) :
  outcome (after_run c s) = inl x -> runtime_error x.
Proof.
  unfold after_run, runtime_error.
  destruct (total_total (analysis c)) as [t |]; [| intros [= <-]; auto 8].
  destruct (won_total (analysis c)) as [w |]; [| intros [= <-]; auto 8].
  destruct (win_rate (or_zero w) (or_zero t)) as [y | rate] eqn:Hrate.
  - intros [= <-]. rewrite (win_rate_error _ _ Hrate). auto 8.
  - destruct (annualized (sharperatio (analysis c)));
      [discriminate |]. intros [= <-]. auto 8.
Qed.

Lemma full_backtest_error (c : backtest) (x : Py.exn) :
  outcome (full_backtest c) = inl x -> runtime_error x.
Proof.
  rewrite full_backtest_eq, outcome_bind.
  destruct (outcome (run default_params (feed c))) as [y | s] eqn:Hrun.
  - intros [= <-].
    destruct (run_from_error _ _ _ _ Hrun) as [H | [H | [H | H]]];
      unfold runtime_error; auto.
  - apply after_run_error.
Qed.

(** A ratio that is not zero is scaled; only [None] and the zeros are
    turned into [None]. *)
Lemma annualized_nonzero (f : float) :
  PrimFloat.eqb f 0 = false -> annualized (Some f) = Some (f * sqrt_252)%float.
Proof. unfold annualized. simpl. now intros ->. Qed.

(** The events of a report are where [after_run] puts them. *)
Lemma in_full_backtest (c : backtest) (ev : event) :
  In ev (output (full_backtest c)) ->
  is_trading ev \/
  exists s, outcome (run default_params (feed c)) = inr s /\
            In ev (output (after_run c s)).
Proof.
  rewrite full_backtest_eq. intros H.
  apply in_output_bind in H as [H | (s & Hrun & H)].
  - left. pose proof (run_from_trading default_params (feed c) 0 init) as Ht.
    rewrite Forall_forall in Ht. now apply Ht.
  - right. now exists s.
Qed.

(** C2: with an absent Sharpe ratio the annualized value is [None] and is
    computed without an error, but the summary line is not printed: in the
    run of [no_ratio] the format [.2f] of [None] raises a type error,
    before the summary and the plot; and in every run with an absent ratio
    [full_backtest] ends with an exception and prints nothing beyond the
    lines of the run. *)
Theorem absent_sharpe_breaks_summary :
  annualized (sharperatio (analysis no_ratio)) = None /\
  full_backtest no_ratio =
  (output (run default_params (feed no_ratio)),
   inl (Py.TypeError
          "unsupported format string passed to NoneType.__format__")) /\
  (forall c : backtest,
      output (full_backtest (with_sharpe None c)) =
      output (run default_params (feed c)) /\
      exists x, outcome (full_backtest (with_sharpe None c)) = inl x).
Proof.
  split; [vm_compute; reflexivity |]. split; [vm_compute; reflexivity |].
  intros c. now apply (full_backtest_unformatted (with_sharpe None c)).
Qed.

(** C10: a Sharpe ratio of 0.0 (or -0.0) is annualized to [None], like an
    absent one, and [full_backtest] then behaves exactly as it does with an
    absent ratio. *)
Theorem zero_sharpe_reported_absent :
  forall c : backtest,
    annualized (Some 0%float) = None /\
    annualized (Some (-0)%float) = None /\
    annualized None = None /\
    full_backtest (with_sharpe (Some 0%float) c) =
    full_backtest (with_sharpe None c).
Proof.
  intros c. do 3 (split; [reflexivity |]).
  rewrite !full_backtest_eq. now apply bind_ext.
Qed.

(** C7 (amended): in the summary line that [full_backtest] prints, the
    trade count is the entry [total.total] of the trade analysis, and when
    that entry is greater than 0 the win rate is [won / total * 100], with
    [won] the entry [won.total] and the quotient that of Python's
    division of integers. *)
Theorem reported_win_rate :
  forall (c : backtest) (fv sh dd tr wr : field),
    In (Summary fv sh dd tr wr) (output (full_backtest c)) ->
    exists total won,
      total_total (analysis c) = Some total /\
      won_total (analysis c) = Some won /\
      tr = Plain (Py.PyInt total) /\
      ((0 < total)%Z ->
       exists q,
         Py.int_truediv won total = inr q /\
         wr = Fixed2 (Py.PyFloat (q * 100)%float)).
Proof.
  intros c fv sh dd tr wr H.
  apply in_full_backtest in H as [[] | (s & _ & H)].
  unfold after_run in H.
  destruct (total_total (analysis c)) as [t |]; [| contradiction].
  destruct (won_total (analysis c)) as [w |]; [| contradiction].
  rewrite !or_zero_id in H.
  destruct (win_rate w t) as [x | rate] eqn:Hrate; [contradiction |].
  destruct (annualized (sharperatio (analysis c))) as [a |];
    [| contradiction].
  simpl in H. destruct H as [[= <- <- <- <- <-] | [[=] | []]].
  exists t, w. repeat split. intros Ht.
  unfold win_rate in Hrate. simpl in Hrate.
  destruct (Z.eqb_spec t 0); [lia |]. simpl in Hrate.
  destruct (Py.int_truediv w t) as [x | q]; [discriminate |].
  injection Hrate as <-. now exists q.
Qed.

(** One trade won out of two: a win rate of 50. *)
Lemma reported_win_rate_witness :
  In (Summary (Fixed2 (Py.PyFloat 9998))
              (Fixed2 (Py.PyFloat (0.125 * sqrt_252)))
              (Fixed2 (Py.PyFloat 3.5))
              (Plain (Py.PyInt 2))
              (Fixed2 (Py.PyFloat 50)))
     (output (full_backtest two_trades)) /\
  exists total won,
    total_total (analysis two_trades) = Some total /\
    won_total (analysis two_trades) = Some won /\
    Plain (Py.PyInt 2) = Plain (Py.PyInt total) /\
    ((0 < total)%Z ->
     exists q,
       Py.int_truediv won total = inr q /\
       Fixed2 (Py.PyFloat 50) = Fixed2 (Py.PyFloat (q * 100)%float)).
Proof.
  assert (Hin : In (Summary (Fixed2 (Py.PyFloat 9998))
                            (Fixed2 (Py.PyFloat (0.125 * sqrt_252)))
                            (Fixed2 (Py.PyFloat 3.5))
                            (Plain (Py.PyInt 2))
                            (Fixed2 (Py.PyFloat 50)))
                   (output (full_backtest two_trades)))
    by (vm_compute; repeat (first [left; reflexivity | right])).
  split; [exact Hin |].
  exact (@reported_win_rate two_trades _ _ _ _ _ Hin).
Defined.

(** C7 as stated fails: the claim divides by the number of closed trades.
    In [second_trade_open] one trade is closed, and won, and a second one
    is still open: the claim gives a win rate of 100, the summary line
    shows 2 trades and a win rate of 50. *)
Lemma win_rate_counts_open_trades :
  ~ (forall (c : backtest) (fv sh dd tr wr : field) (won : Z),
        In (Summary fv sh dd tr wr) (output (full_backtest c)) ->
        won_total (analysis c) = Some won ->
        (closed_trades c = 0%Z -> wr = Fixed2 (Py.PyInt 0)) /\
        ((0 < closed_trades c)%Z ->
         exists q,
           Py.int_truediv won (closed_trades c) = inr q /\
           wr = Fixed2 (Py.PyFloat (q * 100)%float))).
Proof.
  intros H.
  assert (Hin : In (Summary (Fixed2 (Py.PyFloat 10301.5))
                            (Fixed2 (Py.PyFloat (0.125 * sqrt_252)))
                            (Fixed2 (Py.PyFloat 2))
                            (Plain (Py.PyInt 2))
                            (Fixed2 (Py.PyFloat 50)))
                   (output (full_backtest second_trade_open)))
    by (vm_compute; repeat (first [left; reflexivity | right])).
  destruct (H _ _ _ _ _ _ 1%Z Hin eq_refl) as [_ Hrate].
  destruct Hrate as (q & Hq & Hwr); [reflexivity |].
  vm_compute in Hq. injection Hq as <-.
  apply (f_equal (fun f => match f with
                           | Fixed2 (Py.PyFloat x) => PrimFloat.ltb x 75
                           | _ => false
                           end)) in Hwr.
  vm_compute in Hwr. discriminate.
Qed.

(** C8: when the download is empty the program stops at once with the
    error "No data for CHILE.SN", before any run, summary or plot; when it
    is not, [__main__] hands over to [full_backtest] without a further test,
    and every exception from there on is a runtime error of an operation,
    not a failure check. *)
Theorem empty_download_aborts :
  forall (dataframe : Type) (empty : dataframe -> bool)
         (prepare : dataframe -> dataframe) (cerebro : dataframe -> backtest)
         (df : dataframe),
    (empty df = true ->
     main empty prepare cerebro df =
     ([], inl (Py.ValueError "No data for CHILE.SN"))) /\
    (empty df = false ->
     main empty prepare cerebro df = full_backtest (cerebro (prepare df))) /\
    (forall x,
        outcome (full_backtest (cerebro (prepare df))) = inl x ->
        runtime_error x).
Proof.
  intros dataframe empty prepare cerebro df. unfold main.
  split; [| split].
  - now intros ->.
  - now intros ->.
  - intros x. apply full_backtest_error.
Qed.

(** A download without rows. *)
Lemma empty_download_aborts_witness :
  main no_rows (fun df => df) (fun _ => two_trades) [] =
  ([], inl (Py.ValueError "No data for CHILE.SN")).
Proof.
  exact (proj1 (empty_download_aborts no_rows (fun df => df)
                  (fun _ => two_trades) []) eq_refl).
Defined.

(** ** Further properties of the decision function *)

Lemma nan_spec (a : float) : is_nan a = true -> Prim2SF a = S754_nan.
Proof. unfold Prim2SF. now intros ->. Qed.

(** A comparison with a NaN is false on either side. *)
Lemma nan_not_less (a b : float) :
  is_nan a = true -> PrimFloat.ltb a b = false /\ PrimFloat.ltb b a = false.
Proof.
  intros H. rewrite !FloatAxioms.ltb_spec, (nan_spec _ H). unfold SFltb.
  split; [reflexivity |]. now destruct (Prim2SF b).
Qed.

(** What lies below a zero lies below the zero of the source text. *)
Lemma below_zero (a c : float) :
  PrimFloat.ltb a c = true -> PrimFloat.eqb c 0 = true ->
  PrimFloat.ltb a 0 = true.
Proof.
  rewrite !FloatAxioms.ltb_spec, FloatAxioms.eqb_spec.
  change (Prim2SF 0) with (S754_zero false).
  unfold SFltb, SFeqb.
  destruct (Prim2SF c) as [sc | sc | | sc mc ec]; simpl;
    try discriminate;
    destruct (Prim2SF a) as [sa | sa | | sa ma ea]; simpl;
    try discriminate; trivial.
  all: destruct sc; discriminate.
Qed.

(** X1: [next] raises only on the entry path: the position is flat and the
    BUY SIGNAL line is already printed.  The exception is the division by
    zero, which needs a close of zero under a negative 200-bar average, or
    the one [int] raises on a quotient that is not a finite number. *)
Theorem next_raises_only_on_entry :
  forall (p : params) (e : env) (s : strategy) (x : Py.exn),
    outcome (next p e s) = inl x ->
    position e = 0%Z /\
    output (next p e s) =
    [Log (date_of (now e)) (ticker p)
         (BuySignalBar (close (bar e)) (atr (bar e)) (sma_trend (bar e)))] /\
    (x = Py.ZeroDivisionError "float division by zero" /\
     PrimFloat.eqb (close (bar e)) 0 = true /\
     PrimFloat.ltb (sma_trend (bar e)) 0 = true
     \/
     PrimFloat.eqb (close (bar e)) 0 = false /\
     Py.int (cash e * order_percentage p / close (bar e)) = inl x).
Proof.
  intros p e s x. unfold next.
  destruct (entry_signal e) eqn:Hentry;
    [| destruct (exit_signal e); discriminate].
  unfold entry_signal in Hentry.
  apply andb_prop in Hentry as [Hentry _].
  apply andb_prop in Hentry as [Hentry Htrend].
  apply andb_prop in Hentry as [Hflat _].
  unfold in_position in Hflat. apply negb_true_iff, negb_false_iff in Hflat.
  apply Z.eqb_eq in Hflat.
  unfold log, emit, lift, bind, ret, outcome, output.
  destruct (buy_size p e) as [y | n] eqn:Hsize; simpl.
  2:{ destruct (0 <? n)%Z; discriminate. }
  intros [= <-]. repeat split; trivial.
  unfold buy_size, Py.truediv in Hsize.
  destruct (PrimFloat.eqb (close (bar e)) 0) eqn:Hzero.
  - left. injection Hsize as <-. repeat split.
    exact (@below_zero _ _ Htrend Hzero).
  - right. now split.
Qed.

(** A close of zero above an average of -1 divides by zero. *)
Lemma next_raises_only_on_entry_witness :
  position zero_close = 0%Z /\
  PrimFloat.ltb (sma_trend (bar zero_close)) 0 = true.
Proof.
  destruct (@next_raises_only_on_entry default_params zero_close init
              (Py.ZeroDivisionError "float division by zero") eq_refl)
    as (Hflat & _ & [(_ & _ & Hneg) | (Hzero & _)]).
  - now split.
  - discriminate Hzero.
Defined.

(** X2: on a bar where the crossover, the ATR or the average of the ATR is
    not a number, [next] prints nothing, submits nothing and leaves the
    strategy as it is, with or without a position. *)
Theorem nan_indicator_no_order :
  forall (p : params) (e : env) (s : strategy),
    is_nan (crossover (bar e)) = true \/
    is_nan (atr (bar e)) = true \/
    is_nan (atr_sma (bar e)) = true ->
    next p e s = ([], inr (s, None)).
Proof.
  intros p e s H. unfold next, entry_signal, exit_signal, Py.gt, Py.lt.
  destruct H as [H | [H | H]].
  - destruct (@nan_not_less (crossover (bar e)) 0 H) as [-> ->].
    now rewrite !andb_false_r.
  - destruct (@nan_not_less (atr (bar e)) (atr_sma (bar e)) H) as [_ ->].
    now rewrite !andb_false_r.
  - destruct (@nan_not_less (atr_sma (bar e)) (atr (bar e)) H) as [-> _].
    now rewrite !andb_false_r.
Qed.

(** A downward cross in a position, with an ATR that is not a number:
    no close. *)
Lemma nan_indicator_no_order_witness :
  next default_params nan_atr init = ([], inr (init, None)).
Proof.
  apply (@nan_indicator_no_order default_params nan_atr init).
  right. left. reflexivity.
Defined.

(** X3: [next] never touches the signal lists; its only write is
    [self.order], set to the order it submits and kept when it submits
    none. *)
Theorem next_keeps_signal_lists :
  forall (p : params) (e : env) (s : strategy)
         (r : strategy * option order_req),
    outcome (next p e s) = inr r ->
    buy_signals (fst r) = buy_signals s /\
    sell_signals (fst r) = sell_signals s /\
    order (fst r) = match snd r with
                    | Some req => Some req
                    | None => order s
                    end.
Proof.
  intros p e s r H. rewrite (next_state _ _ _ H).
  now destruct (snd r).
Qed.

(** A buy submitted by a strategy that has recorded signals. *)
Lemma next_keeps_signal_lists_witness :
  buy_signals (set_order (Some (Buy 95)) with_signals) =
  buy_signals with_signals /\
  sell_signals (set_order (Some (Buy 95)) with_signals) =
  sell_signals with_signals /\
  order (set_order (Some (Buy 95)) with_signals) = Some (Buy 95).
Proof.
  exact (@next_keeps_signal_lists default_params flat_10000 with_signals
           (set_order (Some (Buy 95)) with_signals, Some (Buy 95)) eq_refl).
Defined.

(** ** Further properties of the notifications and of the run *)

(** One notification: what it adds to the lists and does to the order. *)
Lemma notify_order_step (p : params) (dt : datetime) (o : order_info)
    (s s1 : strategy) :
  outcome (notify_order p dt o s) = inr s1 ->
  buy_signals s1 =
  buy_signals s ++ (if completed true o then [(dt, executed_price o)] else [])
  /\
  sell_signals s1 =
  sell_signals s ++ (if completed false o then [(dt, executed_price o)] else [])
  /\
  order s1 = if clears o then None else order s.
Proof.
  unfold notify_order, completed, clears, log, emit, bind, ret, outcome.
  destruct (status o); simpl; try destruct (isbuy o); simpl;
    intros [= <-]; simpl; now rewrite ?app_nil_r.
Qed.

Lemma deliver_step (p : params) (dt : datetime) (l : list order_info) :
  forall s s',
    outcome (deliver p dt l s) = inr s' ->
    buy_signals s' =
    buy_signals s ++ map (fun o => (dt, executed_price o))
                         (filter (completed true) l) /\
    sell_signals s' =
    sell_signals s ++ map (fun o => (dt, executed_price o))
                          (filter (completed false) l) /\
    order s' = if existsb clears l then None else order s.
Proof.
  induction l as [| o l IH]; intros s s'; simpl.
  - intros [= <-]. now rewrite !app_nil_r.
  - rewrite outcome_bind.
    destruct (outcome (notify_order p dt o s)) as [x | s1] eqn:Hn;
      [discriminate |].
    intros H. apply IH in H as (Hb & Hs & Ho).
    apply notify_order_step in Hn as (Hb1 & Hs1 & Ho1).
    rewrite Hb, Hs, Ho, Hb1, Hs1, Ho1, <- !app_assoc.
    repeat split.
    + now destruct (completed true o).
    + now destruct (completed false o).
    + destruct (clears o); simpl; [now destruct (existsb clears l) | trivial].
Qed.

(** X4: after the notifications of a bar, [self.order] is [None] as soon
    as one of them has a status other than Submitted and Accepted (a
    partial fill, a rejection), whatever follows it, and is what it was
    otherwise. *)
Theorem notifications_clear_order :
  forall (p : params) (dt : datetime) (l : list order_info) (s s' : strategy),
    outcome (deliver p dt l s) = inr s' ->
    order s' = if existsb clears l then None else order s.
Proof.
  intros p dt l s s' H. now apply deliver_step in H.
Qed.

(** A partial fill between Submitted and Accepted leaves no pending order
    behind: the strategy with the buy of 95 pending ends as [init]. *)
Lemma notifications_clear_order_witness :
  order init = None.
Proof.
  exact (@notifications_clear_order default_params (day 201)
           [note Submitted true; note Partial true; note Accepted true]
           (set_order (Some (Buy 95)) init) init eq_refl).
Defined.

Lemma on_bar_step (p : params) (len : nat) (tk : tick) (s s' : strategy) :
  outcome (on_bar p len tk s) = inr s' ->
  buy_signals s' = buy_signals s ++ fills_of true tk /\
  sell_signals s' = sell_signals s ++ fills_of false tk.
Proof.
  unfold on_bar. rewrite outcome_bind.
  destruct (outcome (deliver _ _ _ s)) as [x | s1] eqn:Hd; [discriminate |].
  apply deliver_step in Hd as (Hb & Hs & _). fold (fills_of true tk) in Hb.
  fold (fills_of false tk) in Hs.
  destruct (len <? minperiod p).
  - intros [= <-]. now split.
  - rewrite outcome_bind.
    destruct (outcome (next p (view tk) s1)) as [x | r] eqn:Hn;
      [discriminate |].
    rewrite (next_state _ _ _ Hn).
    destruct (snd r); intros [= <-]; now split.
Qed.

Lemma run_from_step (p : params) (feed : list tick) :
  forall len s s',
    outcome (run_from p len feed s) = inr s' ->
    buy_signals s' = buy_signals s ++ fills true feed /\
    sell_signals s' = sell_signals s ++ fills false feed.
Proof.
  induction feed as [| tk feed IH]; intros len s s'; simpl.
  - intros [= <-]. now rewrite !app_nil_r.
  - rewrite outcome_bind.
    destruct (outcome (on_bar p (S len) tk s)) as [x | s1] eqn:Hbar;
      [discriminate |].
    intros H. apply IH in H as [Hb Hs].
    apply on_bar_step in Hbar as [Hb1 Hs1].
    now rewrite Hb, Hs, Hb1, Hs1, <- !app_assoc.
Qed.

(** X5: when a run ends, the buy list holds exactly the completed buy
    orders the engine notified, as pairs (datetime of the bar of the
    notification, executed price) in the order of their arrival, and the
    sell list the completed sell orders; notifications that arrive during
    the warm-up count, and nothing else is ever recorded. *)
Theorem run_records_fills :
  forall (p : params) (feed : list tick) (s' : strategy),
    outcome (run p feed) = inr s' ->
    buy_signals s' = fills true feed /\
    sell_signals s' = fills false feed.
Proof.
  intros p feed s' H. now apply run_from_step in H.
Qed.

(** The two round trips of [two_trades]. *)
Lemma run_records_fills_witness :
  [(day 201, 101%float); (day 205, 100.5%float)]
  = fills true (feed two_trades) /\
  [(day 203, 105%float); (day 207, 97%float)]
  = fills false (feed two_trades).
Proof.
  exact (@run_records_fills default_params (feed two_trades)
           {| buy_signals := [(day 201, 101%float); (day 205, 100.5%float)];
              sell_signals := [(day 203, 105%float); (day 207, 97%float)];
              order := None |}
           eq_refl).
Defined.

(** Where the size of a buy can be computed, [next] returns. *)
Lemma next_returns (p : params) (tk : tick) (s : strategy) :
  sizeable p tk -> exists r, outcome (next p (view tk) s) = inr r.
Proof.
  intros [Hzero Hfloor].
  destruct (Py.floor _) as [n |] eqn:Hn; [| contradiction].
  destruct (int_of_floor _ Hn) as (t & Hint & _).
  unfold next, log, emit, lift, bind, ret, outcome.
  destruct (entry_signal (view tk)).
  - unfold buy_size, Py.truediv. rewrite Hzero, Hint. simpl.
    destruct (0 <? t)%Z; simpl; eauto.
  - destruct (exit_signal (view tk)); simpl; eauto.
Qed.

Lemma run_from_returns (p : params) (feed : list tick) :
  Forall (sizeable p) feed ->
  forall len s, exists s', outcome (run_from p len feed s) = inr s'.
Proof.
  induction 1 as [| tk feed Htk _ IH]; intros len s; simpl; [now exists s |].
  rewrite outcome_bind.
  assert (Hbar : exists s1, outcome (on_bar p (S len) tk s) = inr s1).
  { unfold on_bar. rewrite outcome_bind.
    destruct (deliver_returns p (now (view tk)) (notifications tk) s)
      as [s0 ->].
    destruct (S len <? minperiod p); [now exists s0 |].
    rewrite outcome_bind.
    destruct (next_returns s0 Htk) as [r ->].
    destruct (snd r); simpl; eauto. }
  destruct Hbar as [s1 ->]. apply IH.
Qed.

Lemma sizeableb_spec (p : params) (tk : tick) :
  sizeableb p tk = true -> sizeable p tk.
Proof.
  unfold sizeableb, sizeable. intros H.
  apply andb_prop in H as [Hz Hf]. apply negb_true_iff in Hz.
  split; [assumption |]. now destruct (Py.floor _).
Qed.

(** X6: a run over at least as many bars as the warm-up takes, whose
    close is never zero and whose quotient
    [cash * order_percentage / close] is always a finite number, raises no
    exception in the strategy: [notify_order] and [next] return on every
    bar, and the run returns the strategy. *)
Theorem run_completes :
  forall (p : params) (feed : list tick),
    minperiod p <= List.length feed ->
    Forall (sizeable p) feed ->
    exists s, outcome (run p feed) = inr s.
Proof.
  intros p feed _ H. now apply run_from_returns.
Qed.

(** The 207 bars of [two_trades], on which [next] buys and sells twice. *)
Lemma run_completes_witness :
  exists s, outcome (run default_params (feed two_trades)) = inr s.
Proof.
  apply (@run_completes default_params (feed two_trades)).
  - vm_compute. repeat constructor.
  - apply Forall_forall. intros tk Hin. apply sizeableb_spec.
    assert (Hall : forallb (sizeableb default_params) (feed two_trades) = true)
      by (vm_compute; reflexivity).
    rewrite forallb_forall in Hall. now apply Hall.
Defined.

(** ** Further properties of the report *)

(** X7: when the run returns, the trade analysis has its entries
    [total.total] and [won.total], the win rate can be computed and the
    Sharpe ratio is present and not zero, [full_backtest] ends normally;
    after the lines of the run it prints one summary line, with the final
    value, the ratio times [252**0.5], the drawdown, the trade count
    [total.total] and the win rate, and then draws one plot with the
    markers of the two signal lists. *)
Theorem full_backtest_reports :
  forall (c : backtest) (s : strategy) (f : float) (total won : Z)
         (rate : Py.value),
    outcome (run default_params (feed c)) = inr s ->
    sharperatio (analysis c) = Some f ->
    PrimFloat.eqb f 0 = false ->
    total_total (analysis c) = Some total ->
    won_total (analysis c) = Some won ->
    win_rate won total = inr rate ->
    full_backtest c =
    (output (run default_params (feed c)) ++
     [Summary (Fixed2 (Py.PyFloat (final_value c)))
              (Fixed2 (Py.PyFloat (f * sqrt_252)))
              (Fixed2 (Py.PyFloat (max_drawdown (analysis c))))
              (Plain (Py.PyInt total))
              (Fixed2 rate);
      Plot (markers (buy_signals s)) (markers (sell_signals s))],
     inr tt).
Proof.
  intros c s f total won rate Hrun Hsr Hf Ht Hw Hrate.
  rewrite full_backtest_eq. unfold after_run.
  rewrite Ht, Hw, !or_zero_id, Hrate, Hsr, (annualized_nonzero Hf).
  destruct (run default_params (feed c)) as [out [x | s0]];
    unfold outcome in Hrun; simpl in Hrun; [discriminate |].
  injection Hrun as ->. reflexivity.
Qed.

(** The summary and the plot of [two_trades]. *)
Lemma full_backtest_reports_witness :
  full_backtest two_trades =
  (output (run default_params (feed two_trades)) ++
   [Summary (Fixed2 (Py.PyFloat 9998))
            (Fixed2 (Py.PyFloat (0.125 * sqrt_252)))
            (Fixed2 (Py.PyFloat 3.5))
            (Plain (Py.PyInt 2))
            (Fixed2 (Py.PyFloat 50));
    Plot (Some ([day 201; day 205], [101; 100.5]%float))
         (Some ([day 203; day 207], [105; 97]%float))],
   inr tt).
Proof.
  exact (@full_backtest_reports two_trades
           {| buy_signals := [(day 201, 101%float); (day 205, 100.5%float)];
              sell_signals := [(day 203, 105%float); (day 207, 97%float)];
              order := None |}
           0.125%float 2%Z 1%Z (Py.PyFloat 50)
           eq_refl eq_refl eq_refl eq_refl eq_refl eq_refl).
Defined.

(** X8: the plot that [full_backtest] draws marks exactly the completed
    orders the engine notified during the run: the buy markers are the
    unzipped completed buys, the sell markers the unzipped completed
    sells, and a direction without a completed order gets no markers. *)
Theorem plot_shows_fills :
  forall (c : backtest)
         (buys sells : option (list datetime * list float)),
    In (Plot buys sells) (output (full_backtest c)) ->
    buys = markers (fills true (feed c)) /\
    sells = markers (fills false (feed c)).
Proof.
  intros c buys sells H.
  apply in_full_backtest in H as [[] | (s & Hrun & H)].
  apply run_from_step in Hrun as [Hb Hs]. simpl in Hb, Hs.
  unfold after_run in H.
  destruct (total_total (analysis c)) as [t |]; [| contradiction].
  destruct (won_total (analysis c)) as [w |]; [| contradiction].
  destruct (win_rate (or_zero w) (or_zero t)) as [x | rate];
    [contradiction |].
  destruct (annualized (sharperatio (analysis c))) as [a |];
    [| contradiction].
  simpl in H. destruct H as [[=] | [[= <- <-] | []]].
  now rewrite Hb, Hs.
Qed.

(** The markers of [two_trades]. *)
Lemma plot_shows_fills_witness :
  Some ([day 201; day 205], [101; 100.5]%float)
  = markers (fills true (feed two_trades)) /\
  Some ([day 203; day 207], [105; 97]%float)
  = markers (fills false (feed two_trades)).
Proof.
  apply (@plot_shows_fills two_trades).
  vm_compute. repeat (first [left; reflexivity | right]).
Defined.

(** X9: the markers of a signal list are absent exactly for the empty
    list; otherwise they are two coordinate lists of the length of the
    list which, zipped again, give the list back. *)
Theorem markers_round_trip :
  forall (l : list (datetime * float)),
    (markers l = None <-> l = []) /\
    forall bx by_,
      markers l = Some (bx, by_) ->
      combine bx by_ = l /\
      List.length bx = List.length l /\ List.length by_ = List.length l.
Proof.
  intros l. split.
  - destruct l; simpl; split; intros H; try discriminate; trivial.
  - intros bx by_ H.
    assert (Hsplit : split l = (bx, by_)).
    { destruct l; simpl in H; [discriminate | now injection H]. }
    repeat split.
    + exact (split_combine l Hsplit).
    + pose proof (length_fst_split l) as Hl. rewrite Hsplit in Hl. exact Hl.
    + pose proof (length_snd_split l) as Hl. rewrite Hsplit in Hl. exact Hl.
Qed.

(** Two recorded buys. *)
Lemma markers_round_trip_witness :
  combine [day 201; day 205] [101; 100.5]%float
  = [(day 201, 101%float); (day 205, 100.5%float)] /\
  List.length [day 201; day 205] = 2 /\
  List.length [101; 100.5]%float = 2.
Proof.
  exact (proj2 (markers_round_trip
                  [(day 201, 101%float); (day 205, 100.5%float)])
           [day 201; day 205] [101; 100.5]%float eq_refl).
Defined.

(** ** Properties of the preparation of the data frame *)

(** A key of the mapping is renamed to its value. *)
Lemma rename_label_key (cap low : string) :
  In (cap, low) mapper -> rename_label cap = low.
Proof.
  unfold mapper. simpl.
  intros [[= <- <-] | [[= <- <-] | [[= <- <-] | [[= <- <-] | [[= <- <-] | []]]]]];
    reflexivity.
Qed.

(** Only a key, or the value itself, is renamed to a value. *)
Lemma rename_label_value (n cap low : string) :
  In (cap, low) mapper -> rename_label n = low -> n = cap \/ n = low.
Proof.
  unfold rename_label, mapper. simpl.
  destruct (String.eqb_spec n "Open") as [-> | _];
    [| destruct (String.eqb_spec n "High") as [-> | _];
       [| destruct (String.eqb_spec n "Low") as [-> | _];
          [| destruct (String.eqb_spec n "Close") as [-> | _];
             [| destruct (String.eqb_spec n "Volume") as [-> | _]]]]];
    intros [[= <- <-] | [[= <- <-] | [[= <- <-] | [[= <- <-] | [[= <- <-] | []]]]]];
    intros H; try discriminate H; auto.
Qed.

(** No label is renamed to a key. *)
Lemma rename_label_no_key (n : string) :
  ~ In (rename_label n) (map fst mapper).
Proof.
  unfold rename_label, mapper. simpl.
  destruct (String.eqb_spec n "Open") as [-> | H1];
    [| destruct (String.eqb_spec n "High") as [-> | H2];
       [| destruct (String.eqb_spec n "Low") as [-> | H3];
          [| destruct (String.eqb_spec n "Close") as [-> | H4];
             [| destruct (String.eqb_spec n "Volume") as [-> | H5]]]]];
    intros [H | [H | [H | [H | [H | []]]]]];
    try discriminate H; congruence.
Qed.

Lemma column_assign_same (n : string) (v : series)
    (cols : list (string * series)) :
  column n (assign n v cols) = Some v.
Proof.
  induction cols as [| [m x] cols IH]; simpl.
  - now rewrite String.eqb_refl.
  - destruct (String.eqb m n) eqn:H; simpl; now rewrite H.
Qed.

Lemma column_assign_other (m n : string) (v : series)
    (cols : list (string * series)) :
  m <> n -> column m (assign n v cols) = column m cols.
Proof.
  intros Hmn. induction cols as [| [k x] cols IH]; simpl.
  - destruct (String.eqb_spec n m); congruence.
  - destruct (String.eqb_spec k n) as [-> | Hk]; simpl.
    + destruct (String.eqb_spec n m); congruence.
    + now rewrite IH.
Qed.

(** After the renaming, the column under a value of the mapping is the
    column that was under its key, when the value was no label before. *)
Lemma column_rename (cap low : string) (cols : list (string * series)) :
  In (cap, low) mapper ->
  column low cols = None ->
  column low (rename cols) = column cap cols.
Proof.
  intros Hin. induction cols as [| [n v] cols IH]; simpl; [trivial |].
  destruct (String.eqb_spec n low) as [-> | Hlow]; [discriminate |].
  intros Hnone.
  destruct (String.eqb_spec n cap) as [-> | Hcap].
  - rewrite (@rename_label_key _ _ Hin). now rewrite String.eqb_refl.
  - destruct (String.eqb_spec (rename_label n) low) as [Heq | _].
    + destruct (@rename_label_value _ _ _ Hin Heq); contradiction.
    + now apply IH.
Qed.

Lemma prepared_close (cols : list (string * series)) :
  column "close" cols = None ->
  column "close" (rename (adopt_adj_close cols)) =
  match column "Adj Close" cols with
  | Some v => Some v
  | None => column "Close" cols
  end.
Proof.
  intros H. unfold adopt_adj_close.
  assert (Hin : In ("Close", "close")%string mapper)
    by (unfold mapper; simpl; do 3 right; now left).
  destruct (column "Adj Close" cols) as [v |].
  - rewrite (@column_rename _ _ _ Hin).
    + apply column_assign_same.
    + rewrite column_assign_other; [assumption | discriminate].
  - now apply column_rename.
Qed.

Lemma prepared_other (cap low : string) (cols : list (string * series)) :
  In (cap, low) mapper -> cap <> "Close"%string ->
  column low cols = None ->
  column low (rename (adopt_adj_close cols)) = column cap cols.
Proof.
  intros Hin Hcap H. unfold adopt_adj_close.
  assert (Hlow : low <> "Close"%string).
  { unfold mapper in Hin. simpl in Hin.
    destruct Hin as [[= <- <-] | [[= <- <-] | [[= <- <-] | [[= <- <-] | [[= <- <-] | []]]]]];
      discriminate. }
  destruct (column "Adj Close" cols) as [v |].
  - rewrite (@column_rename _ _ _ Hin).
    + now apply column_assign_other.
    + now rewrite column_assign_other.
  - now apply column_rename.
Qed.

(** The flat columns a frame is prepared from. *)
Lemma prepare_frame_inv (df g : frame) :
  prepare_frame df = Some g ->
  exists cols,
    index g = index df /\
    labelled g = Flat (rename (adopt_adj_close cols)) /\
    forall name, field_of df name = column name cols.
Proof.
  unfold prepare_frame, field_of.
  destruct (labelled df) as [cols | cols].
  - intros [= <-]. now exists cols.
  - destruct (has_ticker default_ticker cols); [| discriminate].
    intros [= <-]. now exists (xs default_ticker cols).
Qed.

(** X10: in the prepared frame the column [close] holds the adjusted
    closing prices of the download when it has a column 'Adj Close', and
    its closing prices otherwise (the download having no column called
    [close] already); this holds for flat columns and for the ticker's
    columns of a two-level download alike. *)
Theorem prepared_close_prefers_adjusted :
  forall (df g : frame),
    prepare_frame df = Some g ->
    field_of df "close" = None ->
    field_of g "close" =
    match field_of df "Adj Close" with
    | Some v => Some v
    | None => field_of df "Close"
    end.
Proof.
  intros df g H Hnone.
  destruct (@prepare_frame_inv _ _ H) as (cols & _ & Hg & Hf).
  unfold field_of at 1. rewrite Hg, !Hf. rewrite Hf in Hnone.
  now apply prepared_close.
Qed.

(** The [close] of the two-level download is its 'Adj Close'. *)
Lemma prepared_close_prefers_adjusted_witness :
  exists g,
    prepare_frame download_two_level = Some g /\
    field_of g "close" = Some [99; 100]%float.
Proof.
  eexists. split; [reflexivity |].
  exact (@prepared_close_prefers_adjusted download_two_level _
           eq_refl eq_refl).
Defined.

(** X11: in the prepared frame the columns [open], [high], [low] and
    [volume] hold the series the download has under 'Open', 'High', 'Low'
    and 'Volume' (the download having no column of the lower-case name
    already), whether or not the adjusted close was adopted. *)
Theorem prepared_fields_pass_through :
  forall (df g : frame) (cap low : string),
    prepare_frame df = Some g ->
    In (cap, low) mapper ->
    cap <> "Close"%string ->
    field_of df low = None ->
    field_of g low = field_of df cap.
Proof.
  intros df g cap low H Hin Hcap Hnone.
  destruct (@prepare_frame_inv _ _ H) as (cols & _ & Hg & Hf).
  unfold field_of at 1. rewrite Hg, !Hf. rewrite Hf in Hnone.
  now apply prepared_other.
Qed.

(** The [volume] of the two-level download. *)
Lemma prepared_fields_pass_through_witness :
  exists g,
    prepare_frame download_two_level = Some g /\
    field_of g "volume" = Some [5000; 6000]%float.
Proof.
  eexists. split; [reflexivity |].
  refine (@prepared_fields_pass_through download_two_level _
            "Volume" "volume" eq_refl _ _ eq_refl).
  - unfold mapper. simpl. do 4 right. now left.
  - discriminate.
Defined.

(** X12: the preparation keeps the rows of the download, and leaves no
    column called 'Open', 'High', 'Low', 'Close' or 'Volume'. *)
Theorem prepared_labels_lower_case :
  forall (df g : frame),
    prepare_frame df = Some g ->
    index g = index df /\
    forall n, In n (labels g) -> ~ In n (map fst mapper).
Proof.
  intros df g H.
  destruct (@prepare_frame_inv _ _ H) as (cols & Hi & Hg & _).
  split; [assumption |].
  unfold labels. rewrite Hg. unfold rename. rewrite map_map. simpl.
  intros n Hn. apply in_map_iff in Hn as (c & <- & _).
  apply rename_label_no_key.
Qed.

(** The labels of the prepared two-level download. *)
Lemma prepared_labels_lower_case_witness :
  exists g,
    prepare_frame download_two_level = Some g /\
    index g = [day 1; day 2] /\
    labels g = ["Adj Close"; "close"; "high"; "low"; "open"; "volume"]%string.
Proof.
  eexists. split; [reflexivity |]. split; [| reflexivity].
  exact (proj1 (@prepared_labels_lower_case download_two_level _ eq_refl)).
Defined.

(** X13: [full_backtest] reports all or nothing.  Either it ends with an
    exception and has printed nothing beyond the lines of the run, or it
    ends normally and the lines of the run are followed by exactly one
    summary line and one plot, in this order. *)
Theorem report_all_or_nothing :
  forall c : backtest,
    (exists x,
        outcome (full_backtest c) = inl x /\
        output (full_backtest c) = output (run default_params (feed c)))
    \/
    (outcome (full_backtest c) = inr tt /\
     exists fv sh dd tr wr buys sells,
       output (full_backtest c) =
       output (run default_params (feed c)) ++
       [Summary fv sh dd tr wr; Plot buys sells]).
Proof.
  intros c. rewrite full_backtest_eq, output_bind, outcome_bind.
  destruct (outcome (run default_params (feed c))) as [x | s].
  { left. exists x. now rewrite app_nil_r. }
  unfold after_run.
  destruct (total_total (analysis c)) as [t |];
    [| left; eexists; now rewrite app_nil_r].
  destruct (won_total (analysis c)) as [w |];
    [| left; eexists; now rewrite app_nil_r].
  destruct (win_rate (or_zero w) (or_zero t)) as [x | rate];
    [left; eexists; now rewrite app_nil_r |].
  destruct (annualized (sharperatio (analysis c))) as [a |]; simpl.
  - right. split; [reflexivity |]. now repeat eexists.
  - left. eexists. now rewrite app_nil_r.
Qed.

(** A buy of [next] has the size computed from the bar. *)
Lemma next_buy_size (p : params) (e : env) (s : strategy)
    (r : strategy * option order_req) (n : Z) :
  outcome (next p e s) = inr r -> snd r = Some (Buy n) ->
  buy_size p e = inr n /\ (0 < n)%Z.
Proof.
  unfold next, log, emit, lift, bind, ret, outcome.
  destruct (entry_signal e).
  - destruct (buy_size p e) as [x | m]; simpl; [discriminate |].
    destruct (Z.ltb_spec 0 m); simpl; intros [= <-]; simpl; [| discriminate].
    intros [= <-]. now split.
  - destruct (exit_signal e); simpl; intros [= <-]; discriminate.
Qed.

(** X14: every buy of a run, for any parameters, has a positive size, and
    this size is [int((cash * order_percentage) / close)] for the cash and
    the close of the bar it is submitted on. *)
Theorem run_buys_sized_from_bar :
  forall (p : params) (feed : list tick) (bar : nat) (n : Z),
    In (Submit bar (Buy n)) (output (run p feed)) ->
    (0 < n)%Z /\
    exists tk,
      nth_error feed (bar - 1) = Some tk /\
      buy_size p (view tk) = inr n.
Proof.
  intros p feed bar n H.
  apply run_from_submit in H as (_ & _ & tk & s1 & r & Hnth & Hr & Hreq).
  destruct (next_buy_size _ _ _ Hr Hreq) as [Hsize Hpos].
  split; [assumption |]. now exists tk.
Qed.

(** The buy of 98 shares on bar 204 of [two_trades], with a cash of
    10360.5 and a close of 100. *)
Lemma run_buys_sized_from_bar_witness :
  (0 < 98)%Z /\
  exists tk,
    nth_error (feed two_trades) (204 - 1) = Some tk /\
    buy_size default_params (view tk) = inr 98%Z.
Proof.
  apply (@run_buys_sized_from_bar default_params (feed two_trades) 204 98).
  vm_compute. repeat (first [left; reflexivity | right]).
Defined.

(** ** Orders under the engine's handling *)





(** The sample runs follow the engine's handling of orders. *)
Lemma samples_settle :
  settles default_params 0 false (feed two_trades) = true /\
  settles default_params 0 false (feed one_open_trade) = true /\
  settles default_params 0 false (feed second_trade_open) = true /\
  settles default_params 0 false feed_200 = true.
Proof. repeat split; vm_compute; reflexivity. Qed.



(** X15: when the run returns and the trade analysis has its entry
    [total.total] but no entry [won.total] (no trade was closed),
    [full_backtest] raises [KeyError] on reading it: nothing is printed
    beyond the lines of the run, no summary and no plot. *)
Theorem missing_won_entry_raises :
  forall (c : backtest) (s : strategy) (total : Z),
    outcome (run default_params (feed c)) = inr s ->
    total_total (analysis c) = Some total ->
    won_total (analysis c) = None ->
    full_backtest c =
    (output (run default_params (feed c)), inl (Py.KeyError "won")).
Proof.
  intros c s total Hrun Ht Hw.
  rewrite full_backtest_eq. unfold after_run. rewrite Ht, Hw.
  destruct (run default_params (feed c)) as [out [x | s0]];
    unfold outcome in Hrun; simpl in Hrun; [discriminate |].
  simpl. now rewrite app_nil_r.
Qed.

(** The run of [one_open_trade]. *)
Lemma missing_won_entry_raises_witness :
  full_backtest one_open_trade =
  (output (run default_params (feed one_open_trade)),
   inl (Py.KeyError "won")).
Proof.
  exact (@missing_won_entry_raises one_open_trade
           {| buy_signals := [(day 201, 101%float)];
              sell_signals := [];
              order := None |}
           1%Z eq_refl eq_refl eq_refl).
Defined.
